(** * nscope: scope matching of hosts, verified against main.go

    The development embeds the functions of [main.go] as executable Rocq
    functions.  Go strings are byte sequences; they are modelled by
    [string] (a list of [ascii] bytes).  The functions of Go's [strings]
    package are written out on bytes: white space and letter case are the
    ASCII ones, a byte above 127 is neither a space nor a cased letter.
    The functions of [net], [net/url] and [x/net/idna] that are not plain
    string code are operations of the class [NetLib]. *)

From Stdlib Require Import String Ascii List Bool Arith Lia Permutation.
Import ListNotations.
Open Scope string_scope.
Open Scope bool_scope.

(** ** The [strings] package *)

Module Strings.

(** [asciiSpace]: tab, newline, vertical tab, form feed, carriage return,
    space. *)
Definition isSpace (c : ascii) : bool :=
  let n := nat_of_ascii c in
  (((9 <=? n) && (n <=? 13)) || (n =? 32))%nat.

Fixpoint trimLeft (s : string) : string :=
  match s with
  | EmptyString => EmptyString
  | String c s' => if isSpace c then trimLeft s' else s
  end.

Fixpoint trimRight (s : string) : string :=
  match s with
  | EmptyString => EmptyString
  | String c s' =>
      let r := trimRight s' in
      if (r =? "") && isSpace c then "" else String c r
  end.

Definition TrimSpace (s : string) : string := trimRight (trimLeft s).

Fixpoint take (n : nat) (s : string) : string :=
  match n, s with
  | S k, String c s' => String c (take k s')
  | _, _ => ""
  end.

Fixpoint drop (n : nat) (s : string) : string :=
  match n, s with
  | S k, String _ s' => drop k s'
  | _, _ => s
  end.

Fixpoint HasPrefix (s p : string) {struct p} : bool :=
  match p, s with
  | EmptyString, _ => true
  | String a p', String b s' => Ascii.eqb a b && HasPrefix s' p'
  | String _ _, EmptyString => false
  end.

Fixpoint HasSuffix (s suf : string) : bool :=
  (s =? suf) ||
  match s with
  | EmptyString => false
  | String _ s' => HasSuffix s' suf
  end.

Definition TrimPrefix (s p : string) : string :=
  if HasPrefix s p then drop (String.length p) s else s.

Definition TrimSuffix (s suf : string) : string :=
  if HasSuffix s suf then take (String.length s - String.length suf) s else s.

Fixpoint Contains (s sub : string) : bool :=
  HasPrefix s sub ||
  match s with
  | EmptyString => false
  | String _ s' => Contains s' sub
  end.

(** [Index] and [LastIndex] return [None] where Go returns [-1]. *)
Fixpoint Index (s sub : string) : option nat :=
  if HasPrefix s sub then Some 0
  else match s with
       | EmptyString => None
       | String _ s' => option_map S (Index s' sub)
       end.

Fixpoint LastIndex (s sub : string) : option nat :=
  match s with
  | EmptyString => if HasPrefix s sub then Some 0 else None
  | String _ s' =>
      match LastIndex s' sub with
      | Some i => Some (S i)
      | None => if HasPrefix s sub then Some 0 else None
      end
  end.

Definition consHead (c : ascii) (l : list string) : list string :=
  match l with
  | x :: xs => String c x :: xs
  | [] => [String c ""]
  end.

(** [splitGo sep skip s]: the pieces of [s] between the occurrences of the
    non-empty [sep], scanning from the left; [skip] counts the bytes of an
    occurrence still to pass over. *)
Fixpoint splitGo (sep : string) (skip : nat) (s : string) : list string :=
  match s with
  | EmptyString => [""]
  | String c s' =>
      match skip with
      | S k => splitGo sep k s'
      | O => if HasPrefix s sep
             then "" :: splitGo sep (String.length sep - 1) s'
             else consHead c (splitGo sep 0 s')
      end
  end.

Fixpoint explode (s : string) : list string :=
  match s with
  | EmptyString => []
  | String c s' => String c "" :: explode s'
  end.

Definition Split (s sep : string) : list string :=
  match sep with
  | EmptyString => explode s
  | _ => splitGo sep 0 s
  end.

Definition Join (elems : list string) (sep : string) : string :=
  String.concat sep elems.

(** [Fields]: the maximal runs of non-space bytes. *)
Fixpoint Fields (s : string) : list string :=
  match s with
  | EmptyString => []
  | String c s' =>
      if isSpace c then Fields s'
      else match s' with
           | EmptyString => [String c ""]
           | String c' _ =>
               if isSpace c' then String c "" :: Fields s'
               else consHead c (Fields s')
           end
  end.

Definition lowerByte (c : ascii) : ascii :=
  let n := nat_of_ascii c in
  if ((65 <=? n) && (n <=? 90))%nat then ascii_of_nat (n + 32) else c.

Fixpoint ToLower (s : string) : string :=
  match s with
  | EmptyString => EmptyString
  | String c s' => String (lowerByte c) (ToLower s')
  end.

Definition EqualFold (a b : string) : bool := ToLower a =? ToLower b.

(** Every byte of [s] satisfies [f]. *)
Fixpoint allBytes (f : ascii -> bool) (s : string) : bool :=
  match s with
  | EmptyString => true
  | String c s' => f c && allBytes f s'
  end.

Definition notSpace (c : ascii) : bool := negb (isSpace c).

End Strings.
Import Strings.

(** ** Library operations used by main.go *)

(** [net.SplitHostPort], as string code of the Go standard library:
    [None] stands for a returned error. *)
Definition SplitHostPort (hostport : string) : option (string * string) :=
  let finish (host : string) (j k i : nat) :=
    if Contains (drop j hostport) "[" then None
    else if Contains (drop k hostport) "]" then None
    else Some (host, drop (i + 1) hostport) in
  match LastIndex hostport ":" with
  | None => None
  | Some i =>
      if HasPrefix hostport "[" then
        match Index hostport "]" with
        | None => None
        | Some e =>
            if (e + 1 =? String.length hostport)%nat then None
            else if (e + 1 =? i)%nat
                 then finish (take (e - 1) (drop 1 hostport)) 1 (e + 1) i
                 else None
        end
      else
        let host := take i hostport in
        if Contains host ":" then None else finish host 0 0 i
  end.

(** The [Host] field is all of [url.URL] that main.go reads. *)
Record URL : Type := mkURL { Host : string }.

(** The remaining library functions: [net.ParseIP] with [IP.String] and
    [IP.Equal], [idna.ToASCII] and [url.Parse].  A [nil] address or a
    non-[nil] error is [None]. *)
Class NetLib : Type := {
  IP : Type;
  ParseIP : string -> option IP;
  IPString : IP -> string;
  IPEqual : IP -> IP -> bool;
  ToASCII : string -> option string;
  urlParse : string -> option URL
}.

(** ** main.go *)

Inductive scopeKind : Type :=
| scopeExact
| scopeLeadingWildcard
| scopePatternWildcard.

Definition scopeKind_eqb (a b : scopeKind) : bool :=
  match a, b with
  | scopeExact, scopeExact => true
  | scopeLeadingWildcard, scopeLeadingWildcard => true
  | scopePatternWildcard, scopePatternWildcard => true
  | _, _ => false
  end.

Record scopeEntry : Type := mkScopeEntry {
  raw : string;
  kind : scopeKind;
  base : string;
  port : string;
  patternLabels : list string
}.

Definition stripBrackets (s : string) : string :=
  TrimSuffix (TrimPrefix s "[") "]".

(** [if HasPrefix(h, "[") && HasSuffix(h, "]") { h = stripBrackets(h) }] *)
Definition unbracket (h : string) : string :=
  if HasPrefix h "[" && HasSuffix h "]" then stripBrackets h else h.

Definition equalHost (a b : string) : bool :=
  EqualFold (TrimSuffix a ".") (TrimSuffix b ".").

Definition matchLeadingWildcard (host base : string) : bool :=
  if equalHost host base then true
  else if HasSuffix host ("." ++ base) then true
  else false.

(** The loop [for i := range pattern] of [matchPatternWildcard]; it runs
    after the length test, so [hl] and [pattern] are walked together. *)
Fixpoint patternLoop (hl pattern : list string) : bool :=
  match pattern, hl with
  | [], _ => true
  | pi :: pattern', h :: hl' =>
      let p := ToLower (TrimSpace pi) in
      if p =? "*" then
        if h =? "" then false else patternLoop hl' pattern'
      else if negb (EqualFold h p) then false
      else patternLoop hl' pattern'
  | _ :: _, [] => false
  end.

Definition matchPatternWildcard (host : string) (pattern : list string) : bool :=
  let host := TrimSuffix host "." in
  let hl := Split host "." in
  if negb (List.length hl =? List.length pattern)%nat then false
  else patternLoop hl pattern.

Fixpoint lastElem (l : list string) : string :=
  match l with
  | [] => ""
  | [x] => x
  | _ :: l' => lastElem l'
  end.

Fixpoint setNth (i : nat) (v : string) (l : list string) : list string :=
  match l, i with
  | [], _ => []
  | _ :: l', O => v :: l'
  | x :: l', S k => x :: setNth k v l'
  end.

Section WithLib.
Context {L : NetLib}.

(** [if ascii, err := idna.ToASCII(h); err == nil { h = ascii }] *)
Definition asciiOrKeep (h : string) : string :=
  match ToASCII h with
  | Some a => a
  | None => h
  end.

Definition isIP (s : string) : bool :=
  match ParseIP s with Some _ => true | None => false end.

Definition stripPort (h : string) : string * string :=
  let h := TrimSpace h in
  if h =? "" then ("", "")
  else
    let fallback :=
      match SplitHostPort h with
      | Some (host, port) => (host, port)
      | None =>
          let parts := Split h ":" in
          if (1 <? List.length parts)%nat && negb (isIP (lastElem parts))
          then (Join (removelast parts) ":", lastElem parts)
          else (h, "")
      end in
    if HasPrefix h "[" then
      match LastIndex h "]" with
      | Some idx =>
          let host := take (idx + 1) h in
          let rest := drop (idx + 1) h in
          if HasPrefix rest ":" then (host, TrimPrefix rest ":")
          else (host, "")
      | None => fallback
      end
    else fallback.

(** [normalizeHost] returns a string and an error that is always [nil];
    the error is the second component, [None]. *)
Definition normalizeHost (h : string) : string * option string :=
  let h := TrimSpace h in
  if h =? "" then ("", None)
  else
    let h := TrimSuffix h "." in
    match ParseIP h with
    | Some ip => (IPString ip, None)
    | None => (ToLower (asciiOrKeep h), None)
    end.

Definition extractHostFromLine (line : string) : string * string * bool :=
  let line := TrimSpace line in
  if (line =? "") || HasPrefix line "#" then ("", "", false)
  else
    match Fields line with
    | [] => ("", "", false)
    | first :: _ =>
        let direct :=
          let '(h, p) := stripPort first in (unbracket h, p, true) in
        if Contains first "://" then
          match urlParse first with
          | None => ("", "", false)
          | Some u =>
              if Host u =? "" then ("", "", false)
              else let '(h, p) := stripPort (Host u) in (unbracket h, p, true)
          end
        else if HasPrefix first "[" && Contains first "]" then direct
        else if Contains first "/" then
          match urlParse ("http://" ++ first) with
          | Some u =>
              if negb (Host u =? "")
              then let '(h, p) := stripPort (Host u) in (unbracket h, p, true)
              else direct
          | None => direct
          end
        else direct
    end.

End WithLib.

Section WithLibScope.
Context {L : NetLib}.

(** One iteration of the label loop of [parseScopeLine]; [labels] is the
    slice as the iteration finds it, [i] the index below its first length. *)
Definition labelStep (labels : list string) (i : nat) : list string :=
  let lbl := TrimSpace (nth i labels "") in
  if lbl =? "" then setNth i lbl labels
  else if Contains lbl ":" then
    let '(h, p) := stripPort lbl in
    let h := TrimSuffix h "." in
    let h := unbracket h in
    let h := asciiOrKeep h in
    let labels := setNth i h labels in
    if negb (p =? "") then labels ++ ["__PORT__:" ++ p] else labels
  else
    let lbl := if negb (lbl =? "*") then asciiOrKeep lbl else lbl in
    setNth i (ToLower lbl) labels.

Definition parseScopeLine (line : string) : scopeEntry :=
  let orig := line in
  let line := TrimSpace line in
  let line := TrimSuffix line "." in
  if HasPrefix line "*." then
    let without := TrimPrefix line "*." in
    let '(host, port) := stripPort without in
    let host := TrimSuffix host "." in
    let host := unbracket host in
    let host := asciiOrKeep host in
    let host := ToLower host in
    mkScopeEntry orig scopeLeadingWildcard host port []
  else if Contains line "*" then
    let labels := Split line "." in
    let labels := fold_left labelStep (seq 0 (List.length labels)) labels in
    let '(labels, port) :=
      if (0 <? List.length labels)%nat then
        let last := lastElem labels in
        if HasPrefix last "__PORT__:"
        then (removelast labels, TrimPrefix last "__PORT__:")
        else (labels, "")
      else (labels, "") in
    mkScopeEntry orig scopePatternWildcard "" port labels
  else
    let '(host, port) := stripPort line in
    let host := TrimSuffix host "." in
    let host := unbracket host in
    match ParseIP host with
    | Some ip => mkScopeEntry orig scopeExact (IPString ip) port []
    | None =>
        let host := asciiOrKeep host in
        let host := ToLower host in
        mkScopeEntry orig scopeExact host port []
    end.

(** [loadScope] on the lines the scanner yields from the opened file. *)
Fixpoint loadScope (lines : list string) : list scopeEntry :=
  match lines with
  | [] => []
  | raw0 :: rest =>
      let trimmed := TrimSpace raw0 in
      if trimmed =? "" then loadScope rest
      else if HasPrefix trimmed "#" then loadScope rest
      else
        let trimmed :=
          match Index trimmed "#" with
          | Some idx => TrimSpace (take idx trimmed)
          | None => trimmed
          end in
        if trimmed =? "" then loadScope rest
        else parseScopeLine trimmed :: loadScope rest
  end.

(** The port test that follows a host match in every case of [matchHost]:
    [Some true] is [return true], [None] is [continue]. *)
Definition portVerdict (e : scopeEntry) (p : string) : option bool :=
  if negb (port e =? "") then
    if port e =? p then Some true else None
  else Some true.

Fixpoint matchIPLoop (ip : IP) (host p : string) (scope : list scopeEntry) : bool :=
  match scope with
  | [] => false
  | e :: rest =>
      if negb (scopeKind_eqb (kind e) scopeExact) then matchIPLoop ip host p rest
      else if match ParseIP (base e) with
              | Some otherIP => IPEqual otherIP ip
              | None => false
              end
      then match portVerdict e p with
           | Some b => b
           | None => matchIPLoop ip host p rest
           end
      else if EqualFold (base e) host
      then match portVerdict e p with
           | Some b => b
           | None => matchIPLoop ip host p rest
           end
      else matchIPLoop ip host p rest
  end.

Fixpoint matchNameLoop (host p : string) (scope : list scopeEntry) : bool :=
  match scope with
  | [] => false
  | e :: rest =>
      let hit :=
        match kind e with
        | scopeExact => equalHost host (base e)
        | scopeLeadingWildcard => matchLeadingWildcard host (base e)
        | scopePatternWildcard => matchPatternWildcard host (patternLabels e)
        end in
      if hit then
        match portVerdict e p with
        | Some b => b
        | None => matchNameLoop host p rest
        end
      else matchNameLoop host p rest
  end.

Definition matchHost (host p : string) (scope : list scopeEntry) : bool :=
  if host =? "" then false
  else match ParseIP host with
       | Some ip => matchIPLoop ip host p scope
       | None => matchNameLoop host p scope
       end.

(** The body of the scanner loop of [processLines]: the line written to
    the output, if any. *)
Definition processLine (scope : list scopeEntry) (reverse : bool)
    (line : string) : option string :=
  let '(host, p, ok) := extractHostFromLine line in
  if negb ok then None
  else
    let '(normHost, err) := normalizeHost host in
    match err with
    | Some _ => None
    | None =>
        if normHost =? "" then None
        else
          let matched := matchHost normHost p scope in
          if matched && negb reverse then Some line
          else if negb matched && reverse then Some line
          else None
    end.

(** [processLines] on the lines the scanner yields: the lines written. *)
Fixpoint processLines (lines : list string) (scope : list scopeEntry)
    (reverse : bool) : list string :=
  match lines with
  | [] => []
  | line :: rest =>
      match processLine scope reverse line with
      | Some out => out :: processLines rest scope reverse
      | None => processLines rest scope reverse
      end
  end.

End WithLibScope.

(** ** A reference instance of the library

    [RefLib] gives the library operations on the inputs the examples use:
    dotted-quad IPv4 literals (text with a colon is not parsed: IPv6 is
    outside it), [idna.ToASCII] on ASCII names (a name with a byte above
    127 is reported as not convertible), and the authority part of
    [url.Parse]. *)

Module RefLib.

Definition isDigit (c : ascii) : bool :=
  let n := nat_of_ascii c in ((48 <=? n) && (n <=? 57))%nat.

Definition digitOrDot (c : ascii) : bool := isDigit c || Ascii.eqb c ".".

Definition isLetter (c : ascii) : bool :=
  let n := nat_of_ascii (lowerByte c) in ((97 <=? n) && (n <=? 122))%nat.

Definition isHex (c : ascii) : bool :=
  let n := nat_of_ascii (lowerByte c) in
  isDigit c || ((97 <=? n) && (n <=? 102))%nat.

Fixpoint decimal (acc : nat) (s : string) : nat :=
  match s with
  | EmptyString => acc
  | String c s' => decimal (10 * acc + (nat_of_ascii c - 48)) s'
  end.

(** One field of an IPv4 literal: decimal digits, no leading zero, at
    most 255. *)
Definition parseOctet (s : string) : option ascii :=
  if s =? "" then None
  else if negb (allBytes isDigit s) then None
  else if (1 <? String.length s)%nat && HasPrefix s "0" then None
  else if (3 <? String.length s)%nat then None
  else let v := decimal 0 s in
       if (v <=? 255)%nat then Some (ascii_of_nat v) else None.

Definition digit (k : nat) : ascii := ascii_of_nat (48 + k).

Definition printOctet (a : ascii) : string :=
  let n := nat_of_ascii a in
  if (n <? 10)%nat then String (digit n) ""
  else if (n <? 100)%nat then String (digit (n / 10)) (String (digit (n mod 10)) "")
  else String (digit (n / 100))
         (String (digit ((n / 10) mod 10)) (String (digit (n mod 10)) "")).

Definition IPv4 : Type := ascii * ascii * ascii * ascii.

Definition parseIPv4 (s : string) : option IPv4 :=
  match Split s "." with
  | [a; b; c; d] =>
      match parseOctet a, parseOctet b, parseOctet c, parseOctet d with
      | Some a, Some b, Some c, Some d => Some (a, b, c, d)
      | _, _, _, _ => None
      end
  | _ => None
  end.

Definition parseIP (s : string) : option IPv4 :=
  if Contains s ":" then None else parseIPv4 s.

Definition ipString (ip : IPv4) : string :=
  let '(a, b, c, d) := ip in
  printOctet a ++ "." ++ printOctet b ++ "." ++ printOctet c ++ "." ++ printOctet d.

Definition ipEqual (x y : IPv4) : bool :=
  let '(a, b, c, d) := x in
  let '(a', b', c', d') := y in
  Ascii.eqb a a' && Ascii.eqb b b' && Ascii.eqb c c' && Ascii.eqb d d'.

Definition isASCII (c : ascii) : bool := (nat_of_ascii c <? 128)%nat.

Definition toASCII (s : string) : option string :=
  if allBytes isASCII s then Some s else None.

(** [getScheme]: the scheme and what follows its colon. *)
Fixpoint schemeEnd (first : bool) (s : string) : option (option nat) :=
  match s with
  | EmptyString => Some None
  | String c s' =>
      if isLetter c then
        match schemeEnd false s' with
        | Some (Some i) => Some (Some (S i))
        | r => r
        end
      else if isDigit c || Ascii.eqb c "+" || Ascii.eqb c "-" || Ascii.eqb c "." then
        if first then Some None
        else match schemeEnd false s' with
             | Some (Some i) => Some (Some (S i))
             | r => r
             end
      else if Ascii.eqb c ":" then
        if first then None else Some (Some 0)
      else Some None
  end.

Definition cut (s sep : string) : string :=
  match Index s sep with
  | Some i => take i s
  | None => s
  end.

Definition hostByte (c : ascii) : bool :=
  isLetter c || isDigit c || negb (isASCII c) ||
  Contains "-_.~!$&'()*+,;=:[]<>" (String c "") ||
  (nat_of_ascii c =? 34)%nat.

Fixpoint validHost (s : string) : bool :=
  match s with
  | EmptyString => true
  | String c s' =>
      if Ascii.eqb c "%" then
        match s' with
        | String h1 (String h2 s'') =>
            isHex h1 && isHex h2 && negb (isDigit h1 && (nat_of_ascii h1 <? 56)%nat)
            && validHost s''
        | _ => false
        end
      else hostByte c && validHost s'
  end.

Definition validOptionalPort (p : string) : bool :=
  match p with
  | EmptyString => true
  | String c p' => Ascii.eqb c ":" && allBytes isDigit p'
  end.

Definition parseHost (host : string) : option string :=
  if HasPrefix host "[" then
    match LastIndex host "]" with
    | None => None
    | Some i =>
        if validOptionalPort (drop (i + 1) host) && validHost host
        then Some host else None
    end
  else
    let okPort :=
      match LastIndex host ":" with
      | Some i => validOptionalPort (drop i host)
      | None => true
      end in
    if okPort && validHost host then Some host else None.

Definition parseURL (rawURL : string) : option URL :=
  let u := cut rawURL "#" in
  if negb (allBytes (fun c => (31 <? nat_of_ascii c)%nat
                              && negb (nat_of_ascii c =? 127)%nat) u)
  then None
  else
    match schemeEnd true u with
    | None => None
    | Some sch =>
        let rest := match sch with Some i => drop (i + 1) u | None => u end in
        let rest := cut rest "?" in
        let hasScheme := match sch with Some _ => true | None => false end in
        if (hasScheme || negb (HasPrefix rest "///")) && HasPrefix rest "//" then
          let authority := cut (drop 2 rest) "/" in
          let host :=
            match LastIndex authority "@" with
            | Some i => drop (i + 1) authority
            | None => authority
            end in
          option_map mkURL (parseHost host)
        else Some (mkURL "")
    end.

#[export] Instance lib : NetLib := {|
  IP := IPv4;
  ParseIP := parseIP;
  IPString := ipString;
  IPEqual := ipEqual;
  ToASCII := toASCII;
  urlParse := parseURL
|}.

End RefLib.

Definition readmeScope : list scopeEntry :=
  loadScope (L := RefLib.lib) ["example.com"; "*.test.com"; "staging.*.domain.com"].

Definition readmeUrls : list string :=
  ["https://example.com"; "http://example.com:8080"; "ftp://files.example.com";
   "https://example.com/path/to/page?query=string"; "example.com"; "test.com";
   "sub.test.com"; "domain.com:80"; "http://domain.com:80";
   "deep.nested.sub.test.com"; "https://example.com/login [200]";
   "staging.eu.domain.com"; "staging.domain.com"; "production.eu.domain.com";
   "external-site.com"; "api.other-service.net"; "dev.internal.net";
   "example.com."; "EXAMPLE.COM"; "Http://Example.Com:80/path"].

(** ** The matching rules in the words of the specification *)

Section SpecWords.
Context {L : NetLib}.

(** The entry's host rule alone: for a host that is an IP literal only an
    [Exact] entry counts, by equality of addresses or of strings up to
    case; for a name, the rule of the entry's kind. *)
Definition hostHit (host : string) (e : scopeEntry) : bool :=
  match ParseIP host with
  | Some ip =>
      scopeKind_eqb (kind e) scopeExact &&
      (match ParseIP (base e) with
       | Some otherIP => IPEqual otherIP ip
       | None => false
       end || EqualFold (base e) host)
  | None =>
      match kind e with
      | scopeExact => equalHost host (base e)
      | scopeLeadingWildcard => matchLeadingWildcard host (base e)
      | scopePatternWildcard => matchPatternWildcard host (patternLabels e)
      end
  end.

(** The entry's port constraint: none, or the candidate's port string. *)
Definition portOK (e : scopeEntry) (p : string) : bool :=
  (port e =? "") || (port e =? p).

Definition entryMatches (host p : string) (e : scopeEntry) : bool :=
  hostHit host e && portOK e p.

(** Whether [processLines] writes the line. *)
Definition written (scope : list scopeEntry) (reverse : bool) (line : string) : bool :=
  match processLine scope reverse line with
  | Some _ => true
  | None => false
  end.

End SpecWords.

(** One position of a pattern: the label as the matcher reads it (white
    space trimmed, lower case) is the wildcard and the host label is not
    empty, or it equals the host label up to case. *)
Definition labelOK (h pi : string) : bool :=
  let p := ToLower (TrimSpace pi) in
  if p =? "*" then negb (h =? "") else EqualFold h p.

(** ** Facts about the string functions *)

Example Split_ex : Split "a.b..c" "." = ["a"; "b"; ""; "c"].
Proof. reflexivity. Qed.

Example Fields_ex : Fields "  ab  c d " = ["ab"; "c"; "d"].
Proof. reflexivity. Qed.

Example TrimSpace_ex : TrimSpace "  a b  " = "a b".
Proof. reflexivity. Qed.

Example LastIndex_ex : LastIndex "[a]b]" "]" = Some 4.
Proof. reflexivity. Qed.

(** The worked example of the README: the lines kept, and the lines kept
    with [-r]. *)
Example readme_matched :
  processLines (L := RefLib.lib) readmeUrls readmeScope false =
  ["https://example.com"; "http://example.com:8080";
   "https://example.com/path/to/page?query=string"; "example.com";
   "test.com"; "sub.test.com"; "deep.nested.sub.test.com";
   "https://example.com/login [200]"; "staging.eu.domain.com";
   "example.com."; "EXAMPLE.COM"; "Http://Example.Com:80/path"].
Proof. reflexivity. Qed.

Example readme_inverted :
  processLines (L := RefLib.lib) readmeUrls readmeScope true =
  ["ftp://files.example.com"; "domain.com:80"; "http://domain.com:80";
   "staging.domain.com"; "production.eu.domain.com"; "external-site.com";
   "api.other-service.net"; "dev.internal.net"].
Proof. reflexivity. Qed.

Example bracketed_ipv6_line :
  extractHostFromLine (L := RefLib.lib) "[::1]:8080" = ("::1", "8080", true).
Proof. reflexivity. Qed.


Lemma eqb_empty_false (c : ascii) (s : string) : (String c s =? "") = false.
Proof. reflexivity. Qed.

Lemma HasSuffix_app (pre suf : string) : HasSuffix (pre ++ suf) suf = true.
Proof.
  induction pre as [|c pre IH].
  - destruct suf as [|d suf]; [reflexivity|].
    change (((String d suf =? String d suf) || HasSuffix suf (String d suf)) = true).
    now rewrite String.eqb_refl.
  - change (((String c (pre ++ suf) =? suf) || HasSuffix (pre ++ suf) suf) = true).
    rewrite IH. apply orb_true_r.
Qed.

Lemma HasSuffix_inv (s suf : string) :
  HasSuffix s suf = true -> exists pre, s = pre ++ suf.
Proof.
  induction s as [|c s IH]; intros H.
  - destruct suf; [now exists ""|discriminate H].
  - change (((String c s =? suf) || HasSuffix s suf) = true) in H.
    apply orb_true_iff in H. destruct H as [H|H].
    + apply String.eqb_eq in H. exists "". now rewrite H.
    + destruct (IH H) as [pre ->]. now exists (String c pre).
Qed.

Lemma HasSuffix_iff (s suf : string) :
  HasSuffix s suf = true <-> exists pre, s = pre ++ suf.
Proof.
  split; [apply HasSuffix_inv|]. intros [pre ->]. apply HasSuffix_app.
Qed.

Lemma TrimSuffix_noop (s suf : string) :
  HasSuffix s suf = false -> TrimSuffix s suf = s.
Proof. unfold TrimSuffix. now intros ->. Qed.

Lemma lowerByte_idem (c : ascii) : lowerByte (lowerByte c) = lowerByte c.
Proof.
  destruct c as [[] [] [] [] [] [] [] []]; reflexivity.
Qed.

Lemma ToLower_idem (s : string) : ToLower (ToLower s) = ToLower s.
Proof.
  induction s as [|c s IH]; simpl; [reflexivity|].
  now rewrite lowerByte_idem, IH.
Qed.

(** ** The entry invariant of [parseScopeLine] *)

Section ParseFacts.
Context {L : NetLib}.

Lemma parseScopeLine_cases (line : string) :
  let e := parseScopeLine line in
  (kind e = scopePatternWildcard /\ base e = "") \/
  (kind e <> scopePatternWildcard /\ patternLabels e = []).
Proof.
  unfold parseScopeLine.
  destruct (HasPrefix _ "*.").
  - destruct (stripPort _). right. simpl. split; [discriminate|reflexivity].
  - destruct (Contains _ "*").
    + match goal with |- context [if ?c then _ else _] => destruct c end.
      * match goal with |- context [if ?c then _ else _] => destruct c end;
          left; simpl; split; reflexivity.
      * left; simpl; split; reflexivity.
    + destruct (stripPort _). destruct (ParseIP _);
        right; simpl; (split; [discriminate|reflexivity]).
Qed.

(** C9. Every entry built by [parseScopeLine], and so every entry of a
    loaded scope, keeps kind and payload apart: a non-empty [base] occurs
    only with kind [Exact] or [LeadingWildcard] and then there are no
    pattern labels; pattern labels occur only with kind [PatternWildcard]
    and then [base] is empty. *)
Theorem parseScopeLine_exclusive :
  (forall line,
     let e := parseScopeLine line in
     (base e <> "" ->
        (kind e = scopeExact \/ kind e = scopeLeadingWildcard) /\
        patternLabels e = []) /\
     (patternLabels e <> [] ->
        kind e = scopePatternWildcard /\ base e = "") /\
     (kind e = scopePatternWildcard -> base e = "") /\
     (kind e <> scopePatternWildcard -> patternLabels e = [])) /\
  (forall lines e, In e (loadScope lines) ->
     (base e <> "" ->
        (kind e = scopeExact \/ kind e = scopeLeadingWildcard) /\
        patternLabels e = []) /\
     (patternLabels e <> [] ->
        kind e = scopePatternWildcard /\ base e = "")).
Proof.
  assert (A : forall line,
     let e := parseScopeLine line in
     (base e <> "" ->
        (kind e = scopeExact \/ kind e = scopeLeadingWildcard) /\
        patternLabels e = []) /\
     (patternLabels e <> [] ->
        kind e = scopePatternWildcard /\ base e = "") /\
     (kind e = scopePatternWildcard -> base e = "") /\
     (kind e <> scopePatternWildcard -> patternLabels e = [])).
  { intros line e. destruct (parseScopeLine_cases line) as [[K B]|[K P]];
      fold e in K; try fold e in B; try fold e in P.
    - split; [congruence|]. split; [intros _; now split|].
      split; [intros _; exact B|congruence].
    - split.
      + intros _. split; [|exact P].
        destruct (kind e); [now left|now right|congruence].
      + split; [congruence|]. split; [congruence|intros _; exact P]. }
  split; [exact A|].
  induction lines as [|raw0 rest IH]; [simpl; contradiction|].
  intros e. cbn [loadScope].
  destruct (TrimSpace raw0 =? ""); [apply IH|].
  destruct (HasPrefix (TrimSpace raw0) "#"); [apply IH|].
  match goal with |- context [if ?c then _ else _] => destruct c end;
    [apply IH|].
  intros [<-|H]; [|now apply IH].
  match goal with |- context [parseScopeLine ?l] => destruct (A l) as (A1 & A2 & _) end.
  split; assumption.
Qed.

End ParseFacts.

Lemma parseScopeLine_exclusive_witness :
  kind (parseScopeLine (L := RefLib.lib) "staging.*.domain.com:80") =
    scopePatternWildcard /\
  base (parseScopeLine (L := RefLib.lib) "staging.*.domain.com:80") = "".
Proof.
  apply (proj1 (proj2 (proj1 (parseScopeLine_exclusive (L := RefLib.lib))
                         "staging.*.domain.com:80"))).
  discriminate.
Defined.

(** ** The matcher is existential over the scope *)

Section MatchFacts.
Context {L : NetLib}.

Lemma portVerdict_portOK (e : scopeEntry) (p : string) :
  portVerdict e p = if portOK e p then Some true else None.
Proof.
  unfold portVerdict, portOK.
  destruct (port e =? ""); simpl; [reflexivity|].
  destruct (port e =? p); reflexivity.
Qed.

Lemma matchIPLoop_existsb (ip : IP) (host p : string) (scope : list scopeEntry) :
  ParseIP host = Some ip ->
  matchIPLoop ip host p scope = existsb (entryMatches host p) scope.
Proof.
  intros HP. induction scope as [|e rest IH]; simpl; [reflexivity|].
  unfold entryMatches at 1, hostHit. rewrite HP, portVerdict_portOK, IH.
  destruct (scopeKind_eqb (kind e) scopeExact); simpl; [|reflexivity].
  destruct (match ParseIP (base e) with
            | Some otherIP => IPEqual otherIP ip
            | None => false
            end); simpl.
  - destruct (portOK e p); reflexivity.
  - destruct (EqualFold (base e) host); simpl; [|reflexivity].
    destruct (portOK e p); reflexivity.
Qed.

Lemma matchNameLoop_existsb (host p : string) (scope : list scopeEntry) :
  ParseIP host = None ->
  matchNameLoop host p scope = existsb (entryMatches host p) scope.
Proof.
  intros HP. induction scope as [|e rest IH]; simpl; [reflexivity|].
  unfold entryMatches at 1, hostHit. rewrite HP, portVerdict_portOK, IH.
  destruct (match kind e with
            | scopeExact => equalHost host (base e)
            | scopeLeadingWildcard => matchLeadingWildcard host (base e)
            | scopePatternWildcard => matchPatternWildcard host (patternLabels e)
            end); simpl; [|reflexivity].
  destruct (portOK e p); reflexivity.
Qed.

Lemma matchHost_existsb (host p : string) (scope : list scopeEntry) :
  matchHost host p scope =
  negb (host =? "") && existsb (entryMatches host p) scope.
Proof.
  unfold matchHost. destruct (host =? ""); simpl; [reflexivity|].
  destruct (ParseIP host) as [ip|] eqn:HP.
  - now apply matchIPLoop_existsb.
  - now apply matchNameLoop_existsb.
Qed.

Lemma portOK_true (e : scopeEntry) (p : string) :
  portOK e p = true <-> port e = "" \/ port e = p.
Proof.
  unfold portOK. rewrite orb_true_iff, !String.eqb_eq. reflexivity.
Qed.

End MatchFacts.

Lemma scopeKind_eqb_eq (a b : scopeKind) : scopeKind_eqb a b = true <-> a = b.
Proof. destruct a, b; simpl; split; congruence. Qed.

Lemma matchHost_exists {L : NetLib} (host p : string) (scope : list scopeEntry) :
  matchHost host p scope = true <->
  host <> "" /\
  exists e, In e scope /\ hostHit host e = true /\ (port e = "" \/ port e = p).
Proof.
  rewrite matchHost_existsb, andb_true_iff, negb_true_iff, existsb_exists.
  split.
  - intros [HE (e & HIn & HM)]. split.
    + intros ->. discriminate HE.
    + exists e. unfold entryMatches in HM. apply andb_true_iff in HM.
      destruct HM as [HH HPt]. apply portOK_true in HPt. auto.
  - intros [HE (e & HIn & HH & HPt)]. split.
    + destruct (String.eqb_spec host ""); congruence.
    + exists e. split; [assumption|]. unfold entryMatches.
      rewrite HH. simpl. now apply portOK_true.
Qed.

(** C2. The verdict of [matchHost] is existential over the scope list: a
    non-empty host matches exactly when some entry's host rule accepts it
    and that entry has no port constraint or its port is the candidate's
    port string; so an entry with a port never matches a candidate of
    another or of no port, a port mismatch on one entry leaves the later
    entries to decide, and with [example.com] and [example.com:80] in
    scope (in either order) host [example.com] without port matches. *)
Theorem matchHost_port_existential :
  (forall (L : NetLib) host p scope,
     matchHost host p scope = true <->
     host <> "" /\
     exists e, In e scope /\ hostHit host e = true /\
               (port e = "" \/ port e = p)) /\
  (forall (L : NetLib) host p e,
     port e <> "" -> port e <> p -> entryMatches host p e = false) /\
  (forall (L : NetLib) host p e rest,
     port e <> "" -> port e <> p ->
     matchHost host p (e :: rest) = matchHost host p rest) /\
  (let scope := loadScope (L := RefLib.lib) ["example.com"; "example.com:80"] in
   matchHost (L := RefLib.lib) "example.com" "" scope = true) /\
  (let scope := loadScope (L := RefLib.lib) ["example.com:80"; "example.com"] in
   matchHost (L := RefLib.lib) "example.com" "" scope = true) /\
  (let scope := loadScope (L := RefLib.lib) ["domain.com:80"] in
   matchHost (L := RefLib.lib) "domain.com" "80" scope = true /\
   matchHost (L := RefLib.lib) "domain.com" "8080" scope = false /\
   matchHost (L := RefLib.lib) "domain.com" "" scope = false).
Proof.
  assert (P : forall (L : NetLib) host p e,
             port e <> "" -> port e <> p -> entryMatches host p e = false).
  { intros L host p e H1 H2. unfold entryMatches, portOK.
    destruct (String.eqb_spec (port e) ""); [contradiction|].
    destruct (String.eqb_spec (port e) p); [contradiction|].
    apply andb_false_r. }
  split; [intros; apply matchHost_exists|].
  split; [exact P|].
  split.
  { intros L host p e rest H1 H2. rewrite !matchHost_existsb. simpl.
    now rewrite (P L host p e H1 H2). }
  repeat split; reflexivity.
Qed.

Lemma matchHost_port_existential_witness :
  matchHost (L := RefLib.lib) "example.com" ""
    (loadScope (L := RefLib.lib) ["example.com:80"; "example.com"]) =
  matchHost (L := RefLib.lib) "example.com" ""
    (loadScope (L := RefLib.lib) ["example.com"]).
Proof.
  apply (proj1 (proj2 (proj2 matchHost_port_existential)) RefLib.lib
           "example.com" ""); simpl; discriminate.
Defined.

(** C5. For a candidate host that parses as an IP literal, [matchHost]
    answers true exactly when the scope holds an [Exact] entry whose base
    parses to an equal address or equals the host as a string up to case,
    and whose port constraint is absent or is the candidate's port string;
    entries of the two wildcard kinds never make an IP host match. *)
Theorem matchHost_ip_exact_only (L : NetLib) (host p : string) (ip : IP)
    (scope : list scopeEntry) :
  host <> "" ->
  ParseIP host = Some ip ->
  (matchHost host p scope = true <->
   exists e, In e scope /\ kind e = scopeExact /\
     ((exists otherIP, ParseIP (base e) = Some otherIP /\
                       IPEqual otherIP ip = true) \/
      EqualFold (base e) host = true) /\
     (port e = "" \/ port e = p)) /\
  (Forall (fun e => kind e <> scopeExact) scope ->
   matchHost host p scope = false).
Proof.
  intros HE HP.
  assert (K : forall e, hostHit host e = true <->
            kind e = scopeExact /\
            ((exists otherIP, ParseIP (base e) = Some otherIP /\
                              IPEqual otherIP ip = true) \/
             EqualFold (base e) host = true)).
  { intros e. unfold hostHit. rewrite HP, andb_true_iff, scopeKind_eqb_eq,
      orb_true_iff.
    destruct (ParseIP (base e)) as [o|]; split.
    - intros [HK [HI|HF]]; (split; [assumption|]); [left; now exists o|now right].
    - intros [HK [(o' & Ho & HI)|HF]]; (split; [assumption|]);
        [left; congruence|now right].
    - intros [HK [HI|HF]]; [discriminate|]. split; [assumption|now right].
    - intros [HK [(o' & Ho & HI)|HF]]; [discriminate|].
      split; [assumption|now right]. }
  split.
  - rewrite matchHost_exists. split.
    + intros [_ (e & HIn & HH & HPt)]. apply K in HH. exists e. tauto.
    + intros (e & HIn & HK & HH & HPt). split; [assumption|].
      exists e. split; [assumption|]. split; [|assumption]. apply K. tauto.
  - intros HF. destruct (matchHost host p scope) eqn:HM; [|reflexivity].
    apply matchHost_exists in HM. destruct HM as [_ (e & HIn & HH & _)].
    apply K in HH. rewrite Forall_forall in HF. destruct (HF e HIn), HH.
    assumption.
Qed.

Lemma matchHost_ip_exact_only_witness :
  "10.0.0.1" <> "" /\
  ParseIP (NetLib := RefLib.lib) "10.0.0.1" = Some ("010", "000", "000", "001")%char /\
  matchHost (L := RefLib.lib) "10.0.0.1" "80"
    [mkScopeEntry "*.0.0.1" scopeLeadingWildcard "0.0.1" "" []] = false.
Proof.
  split; [discriminate|]. split; [reflexivity|].
  apply (proj2 (matchHost_ip_exact_only RefLib.lib "10.0.0.1" "80"
                  ("010", "000", "000", "001")%char
                  [mkScopeEntry "*.0.0.1" scopeLeadingWildcard "0.0.1" "" []]
                  ltac:(discriminate) eq_refl)).
  repeat constructor. discriminate.
Defined.

(** ** Pattern and leading wildcards *)

Lemma patternLoop_Forall2 (hl pattern : list string) :
  List.length hl = List.length pattern ->
  (patternLoop hl pattern = true <->
   Forall2 (fun h pi => labelOK h pi = true) hl pattern).
Proof.
  revert hl. induction pattern as [|pi pattern IH]; intros [|h hl] Hlen;
    simpl in Hlen; try discriminate Hlen.
  - simpl. split; [constructor|reflexivity].
  - injection Hlen as Hlen. specialize (IH hl Hlen). simpl.
    assert (E : patternLoop (h :: hl) (pi :: pattern) =
                labelOK h pi && patternLoop hl pattern).
    { simpl. unfold labelOK.
      destruct (ToLower (TrimSpace pi) =? "*").
      - destruct (h =? ""); reflexivity.
      - destruct (EqualFold h (ToLower (TrimSpace pi))); reflexivity. }
    simpl in E. rewrite E, andb_true_iff, IH. split.
    + intros [A B]. now constructor.
    + intros H. inversion H; subst. now split.
Qed.

Lemma labelOK_plain (h pi : string) :
  TrimSpace pi = pi -> ToLower pi = pi ->
  labelOK h pi = if pi =? "*" then negb (h =? "") else EqualFold h pi.
Proof. intros HT HL. unfold labelOK. now rewrite HT, HL. Qed.

(** C3 (as amended). [matchPatternWildcard] strips one trailing dot from
    the host, splits it on dots, and answers true exactly when the host
    has as many labels as the pattern and every position is accepted.  A
    pattern label is read after trimming white space and lower-casing: if
    it then is [*], the host label must be non-empty, otherwise it must
    equal the host label up to case.  For a pattern label that is trimmed
    and in lower case already, this is the label itself.
    [staging.*.domain.com] matches [staging.eu.domain.com] and not
    [staging.domain.com]. *)
Theorem matchPatternWildcard_labels :
  (forall host pattern,
     matchPatternWildcard host pattern = true <->
     let hl := Split (TrimSuffix host ".") "." in
     List.length hl = List.length pattern /\
     Forall2 (fun h pi => labelOK h pi = true) hl pattern) /\
  (forall h pi,
     TrimSpace pi = pi -> ToLower pi = pi ->
     labelOK h pi = if pi =? "*" then negb (h =? "") else EqualFold h pi) /\
  patternLabels (parseScopeLine (L := RefLib.lib) "staging.*.domain.com") =
    ["staging"; "*"; "domain"; "com"] /\
  matchPatternWildcard "staging.eu.domain.com" ["staging"; "*"; "domain"; "com"] = true /\
  matchPatternWildcard "Staging.EU.domain.com." ["staging"; "*"; "domain"; "com"] = true /\
  matchPatternWildcard "staging.domain.com" ["staging"; "*"; "domain"; "com"] = false /\
  matchPatternWildcard "staging.a.b.domain.com" ["staging"; "*"; "domain"; "com"] = false /\
  matchPatternWildcard "staging..domain.com" ["staging"; "*"; "domain"; "com"] = false.
Proof.
  split.
  { intros host pattern. unfold matchPatternWildcard. cbv zeta.
    destruct (Nat.eqb_spec (List.length (Split (TrimSuffix host ".") "."))
                           (List.length pattern)) as [E|E]; simpl.
    - rewrite (patternLoop_Forall2 _ _ E). tauto.
    - split; [discriminate|]. intros [E' _]. contradiction. }
  split; [exact labelOK_plain|].
  repeat split; reflexivity.
Qed.

Lemma matchPatternWildcard_labels_witness :
  labelOK "EU" "*" = true /\ labelOK "" "*" = false /\ labelOK "COM" "com" = true.
Proof.
  pose proof (proj1 (proj2 matchPatternWildcard_labels)) as H.
  rewrite (H "EU" "*" eq_refl eq_refl), (H "" "*" eq_refl eq_refl),
    (H "COM" "com" eq_refl eq_refl).
  repeat split; reflexivity.
Defined.

(** C3, the claim as stated fails: the scope line [x.*.a :80] is parsed
    into the labels [x], [*] and [a] followed by a space; that last label
    does not equal the host label [a] up to case, yet the entry matches
    [x.y.a] and the line [x.y.a:80] is written.  A label [*] with spaces
    around it acts as the wildcard as well. *)
Lemma pattern_label_read_trimmed :
  patternLabels (parseScopeLine (L := RefLib.lib) "x.*.a :80") = ["x"; "*"; "a "] /\
  EqualFold "a" "a " = false /\
  matchPatternWildcard "x.y.a" ["x"; "*"; "a "] = true /\
  processLines (L := RefLib.lib) ["x.y.a:80"]
    (loadScope (L := RefLib.lib) ["x.*.a :80"]) false = ["x.y.a:80"] /\
  matchPatternWildcard "x.y.a" ["x"; " * "; "a"] = true.
Proof. repeat split; reflexivity. Qed.

Lemma matchLeadingWildcard_orb (host b : string) :
  matchLeadingWildcard host b = equalHost host b || HasSuffix host ("." ++ b).
Proof.
  unfold matchLeadingWildcard.
  destruct (equalHost host b); [reflexivity|].
  destruct (HasSuffix host ("." ++ b)); reflexivity.
Qed.

Lemma equalHost_same (a : string) : equalHost a a = true.
Proof. unfold equalHost, EqualFold. apply String.eqb_refl. Qed.

(** C4 (as amended). [matchLeadingWildcard host b] is true exactly when
    the host equals the base [b] up to letter case and one trailing dot on
    either side (the comparison of [equalHost]) or the host ends with
    ["." ++ b]; in particular it is true when the host is [b] itself or
    any text followed by ["." ++ b].  [test.com], [api.test.com] and
    [deep.nested.sub.test.com] match [*.test.com], [nottest.com] does
    not. *)
Theorem matchLeadingWildcard_suffix :
  (forall host b,
     matchLeadingWildcard host b = true <->
     equalHost host b = true \/ exists pre, host = pre ++ "." ++ b) /\
  (forall host b,
     host = b \/ (exists pre, host = pre ++ "." ++ b) ->
     matchLeadingWildcard host b = true) /\
  base (parseScopeLine (L := RefLib.lib) "*.test.com") = "test.com" /\
  matchLeadingWildcard "test.com" "test.com" = true /\
  matchLeadingWildcard "api.test.com" "test.com" = true /\
  matchLeadingWildcard "deep.nested.sub.test.com" "test.com" = true /\
  matchLeadingWildcard "nottest.com" "test.com" = false.
Proof.
  assert (A : forall host b,
     matchLeadingWildcard host b = true <->
     equalHost host b = true \/ exists pre, host = pre ++ "." ++ b).
  { intros host b.
    rewrite matchLeadingWildcard_orb, orb_true_iff, HasSuffix_iff. reflexivity. }
  split; [exact A|]. split.
  { intros host b [E|E]; apply A.
    - left. rewrite E. apply equalHost_same.
    - now right. }
  repeat split; reflexivity.
Qed.

Lemma matchLeadingWildcard_suffix_witness :
  matchLeadingWildcard "api.test.com" "test.com" = true.
Proof.
  apply (proj1 (proj2 matchLeadingWildcard_suffix)).
  right. now exists "api".
Defined.

(** C4, the claim as stated fails: the input host [test.com..] is
    normalized to [test.com.], which is not the base [test.com] and does
    not end with [.test.com], and yet it matches [*.test.com]: the
    comparison with the base ignores one trailing dot (and letter
    case). *)
Lemma leadingWildcard_not_plain_equality :
  fst (normalizeHost (L := RefLib.lib) "test.com..") = "test.com." /\
  "test.com." <> "test.com" /\
  HasSuffix "test.com." ("." ++ "test.com") = false /\
  matchLeadingWildcard "test.com." "test.com" = true /\
  processLines (L := RefLib.lib) ["test.com.."]
    (loadScope (L := RefLib.lib) ["*.test.com"]) false = ["test.com.."].
Proof. repeat split; try reflexivity. discriminate. Qed.

(** ** Fields, trimming and splitting of a field without separator *)

Lemma trimLeft_noSpace (s : string) : allBytes notSpace s = true -> trimLeft s = s.
Proof.
  destruct s as [|c s]; simpl; [reflexivity|]. unfold notSpace.
  destruct (isSpace c); simpl; [discriminate|reflexivity].
Qed.

Lemma trimRight_noSpace (s : string) : allBytes notSpace s = true -> trimRight s = s.
Proof.
  induction s as [|c s IH]; simpl; [reflexivity|]. unfold notSpace at 1.
  intros H. apply andb_true_iff in H. destruct H as [Hc Hs].
  rewrite (IH Hs). destruct (isSpace c); [discriminate|].
  now rewrite andb_false_r.
Qed.

Lemma TrimSpace_noSpace (s : string) : allBytes notSpace s = true -> TrimSpace s = s.
Proof.
  intros H. unfold TrimSpace. rewrite (trimLeft_noSpace _ H).
  now apply trimRight_noSpace.
Qed.

Lemma Fields_noSpace (s : string) :
  Forall (fun f => f <> "" /\ allBytes notSpace f = true) (Fields s).
Proof.
  induction s as [|c s IH]; [constructor|].
  change (Fields (String c s)) with
    (if isSpace c then Fields s
     else match s with
          | EmptyString => [String c ""]
          | String c' _ =>
              if isSpace c' then String c "" :: Fields s
              else consHead c (Fields s)
          end).
  destruct (isSpace c) eqn:Hc; [exact IH|].
  assert (One : String c "" <> "" /\ allBytes notSpace (String c "") = true).
  { split; [discriminate|]. simpl. unfold notSpace. now rewrite Hc. }
  destruct s as [|c' s']; [now constructor|].
  destruct (isSpace c'); [now constructor|].
  destruct (Fields (String c' s')) as [|x xs]; [now constructor|].
  simpl. inversion IH as [|? ? [Hx Hn] Hxs]; subst. constructor; [|assumption].
  split; [discriminate|]. simpl. unfold notSpace at 1. now rewrite Hc, Hn.
Qed.

Lemma HasPrefix_byte (c : ascii) (s sep : string) :
  HasPrefix (String c s) (String c sep) = HasPrefix s sep.
Proof. simpl. now rewrite Ascii.eqb_refl. Qed.

Lemma LastIndex_none (s : string) (c : ascii) :
  Contains s (String c "") = false -> LastIndex s (String c "") = None.
Proof.
  induction s as [|a s IH]; [reflexivity|].
  change (Contains (String a s) (String c "")) with
    (HasPrefix (String a s) (String c "") || Contains s (String c "")).
  intros H. apply orb_false_iff in H. destruct H as [H1 H2].
  change (LastIndex (String a s) (String c "")) with
    (match LastIndex s (String c "") with
     | Some i => Some (S i)
     | None => if HasPrefix (String a s) (String c "") then Some 0 else None
     end).
  now rewrite (IH H2), H1.
Qed.

Lemma splitGo_none (s : string) (c : ascii) :
  Contains s (String c "") = false -> splitGo (String c "") 0 s = [s].
Proof.
  induction s as [|a s IH]; [reflexivity|].
  change (Contains (String a s) (String c "")) with
    (HasPrefix (String a s) (String c "") || Contains s (String c "")).
  intros H. apply orb_false_iff in H. destruct H as [H1 H2].
  change (splitGo (String c "") 0 (String a s)) with
    (if HasPrefix (String a s) (String c "")
     then "" :: splitGo (String c "") (String.length (String c "") - 1) s
     else consHead a (splitGo (String c "") 0 s)).
  now rewrite H1, (IH H2).
Qed.

Lemma stripPort_plain {L : NetLib} (f : string) :
  f <> "" -> allBytes notSpace f = true ->
  HasPrefix f "[" = false -> Contains f ":" = false ->
  stripPort f = (f, "").
Proof.
  intros Hne Hsp Hbr Hco. unfold stripPort.
  rewrite (TrimSpace_noSpace _ Hsp).
  destruct (String.eqb_spec f ""); [contradiction|].
  rewrite Hbr. unfold SplitHostPort. rewrite (LastIndex_none _ _ Hco).
  unfold Split. rewrite (splitGo_none _ _ Hco). reflexivity.
Qed.

(** ** Host extraction *)

Section ExtractFacts.
Context {L : NetLib}.

Lemma extract_direct (line first : string) (rest : list string) :
  HasPrefix (TrimSpace line) "#" = false ->
  Fields (TrimSpace line) = first :: rest ->
  Contains first "://" = false ->
  Contains first "/" = false ->
  extractHostFromLine line =
  (let '(h, p) := stripPort first in (unbracket h, p, true)).
Proof.
  intros Hh HF Hs Hp. unfold extractHostFromLine.
  destruct (String.eqb_spec (TrimSpace line) "") as [E|_].
  { rewrite E in HF. discriminate HF. }
  rewrite Hh, HF, Hs, Hp. cbn [orb].
  destruct (HasPrefix first "[" && Contains first "]"); reflexivity.
Qed.

Lemma extract_scheme_error (line first : string) (rest : list string) :
  HasPrefix (TrimSpace line) "#" = false ->
  Fields (TrimSpace line) = first :: rest ->
  Contains first "://" = true ->
  urlParse first = None ->
  extractHostFromLine line = ("", "", false).
Proof.
  intros Hh HF Hs Hu. unfold extractHostFromLine.
  destruct (String.eqb_spec (TrimSpace line) "") as [E|_]; [reflexivity|].
  now rewrite Hh, HF, Hs, Hu.
Qed.

Lemma extract_slash_error (line first : string) (rest : list string) :
  HasPrefix (TrimSpace line) "#" = false ->
  Fields (TrimSpace line) = first :: rest ->
  Contains first "://" = false ->
  Contains first "/" = true ->
  urlParse ("http://" ++ first) = None ->
  extractHostFromLine line =
  (let '(h, p) := stripPort first in (unbracket h, p, true)).
Proof.
  intros Hh HF Hs Hp Hu. unfold extractHostFromLine.
  destruct (String.eqb_spec (TrimSpace line) "") as [E|_].
  { rewrite E in HF. discriminate HF. }
  rewrite Hh, HF, Hs, Hp, Hu. cbn [orb].
  destruct (HasPrefix first "[" && Contains first "]"); reflexivity.
Qed.

Lemma extract_ok_of_direct (first : string) :
  snd (let '(h, p) := stripPort first in (unbracket h, p, true)) = true.
Proof. now destruct (stripPort first). Qed.

Lemma processLine_cases (scope : list scopeEntry) (reverse : bool) (line : string) :
  processLine scope reverse line =
  let '(host, p, ok) := extractHostFromLine line in
  let normHost := fst (normalizeHost host) in
  if ok && negb (normHost =? "") then
    if Bool.eqb (matchHost normHost p scope) reverse then None else Some line
  else None.
Proof.
  unfold processLine. destruct (extractHostFromLine line) as [[host p] ok].
  destruct ok; simpl; [|reflexivity].
  assert (E : snd (normalizeHost host) = None).
  { unfold normalizeHost. destruct (TrimSpace host =? ""); [reflexivity|].
    destruct (ParseIP _); reflexivity. }
  destruct (normalizeHost host) as [normHost err]. simpl in E. subst err. simpl.
  destruct (normHost =? ""); simpl; [reflexivity|].
  destruct (matchHost normHost p scope), reverse; reflexivity.
Qed.

End ExtractFacts.

(** C1 (as amended). A line from which no host is extracted, or whose
    normalized host is empty, is written in neither mode; a line with a
    non-empty normalized host is written exactly when the verdict of
    [matchHost] differs from the inversion flag, so under inversion the
    lines written are those with a host that matches no entry. *)
Theorem processLine_skips_unparsable (L : NetLib) (scope : list scopeEntry)
    (reverse : bool) (line : string) :
  (snd (extractHostFromLine line) = false \/
   fst (normalizeHost (fst (fst (extractHostFromLine line)))) = "" ->
   processLine scope reverse line = None) /\
  (snd (extractHostFromLine line) = true ->
   fst (normalizeHost (fst (fst (extractHostFromLine line)))) <> "" ->
   processLine scope reverse line =
   if Bool.eqb (matchHost (fst (normalizeHost (fst (fst (extractHostFromLine line)))))
                          (snd (fst (extractHostFromLine line))) scope) reverse
   then None else Some line).
Proof.
  rewrite processLine_cases.
  destruct (extractHostFromLine line) as [[host p] ok]. simpl. split.
  - intros [E | E]; rewrite E; [reflexivity|]. simpl. now rewrite andb_false_r.
  - intros -> Hn. simpl.
    destruct (String.eqb_spec (fst (normalizeHost host)) ""); [contradiction|].
    reflexivity.
Qed.

Lemma processLine_skips_unparsable_witness :
  processLine (L := RefLib.lib) [] true ":80" = None /\
  processLine (L := RefLib.lib) [] false ":80" = None.
Proof.
  split.
  - apply (proj1 (processLine_skips_unparsable RefLib.lib [] true ":80")).
    right. reflexivity.
  - apply (proj1 (processLine_skips_unparsable RefLib.lib [] false ":80")).
    right. reflexivity.
Defined.

(** C1, the claim as stated fails: with inversion requested and an empty
    scope, the lines ["http://"] (no host to extract), ["# note"] and
    [":80"] (empty host) are not written. *)
Lemma unparsable_line_not_emitted_under_inversion :
  snd (extractHostFromLine (L := RefLib.lib) "http://") = false /\
  snd (extractHostFromLine (L := RefLib.lib) "# note") = false /\
  fst (normalizeHost (L := RefLib.lib)
         (fst (fst (extractHostFromLine (L := RefLib.lib) ":80")))) = "" /\
  processLines (L := RefLib.lib) ["http://"; "# note"; ":80"] [] true = [].
Proof. repeat split; reflexivity. Qed.

(** C7 (as amended). A field with ["://"] whose URL parsing fails is
    discarded ([ok = false]).  A field without scheme that contains ["/"]
    and whose parsing behind the synthetic ["http://"] fails is not
    discarded: the whole field is split as [host[:port]] and [ok = true]. *)
Theorem extract_url_failure (L : NetLib) (line first : string)
    (rest : list string) :
  HasPrefix (TrimSpace line) "#" = false ->
  Fields (TrimSpace line) = first :: rest ->
  (Contains first "://" = true -> urlParse first = None ->
   extractHostFromLine line = ("", "", false)) /\
  (Contains first "://" = false -> Contains first "/" = true ->
   urlParse ("http://" ++ first) = None ->
   extractHostFromLine line =
     (let '(h, p) := stripPort first in (unbracket h, p, true)) /\
   snd (extractHostFromLine line) = true).
Proof.
  intros Hh HF. split.
  - intros Hs Hu. now apply (extract_scheme_error line first rest).
  - intros Hs Hp Hu.
    rewrite (extract_slash_error line first rest Hh HF Hs Hp Hu).
    split; [reflexivity|apply extract_ok_of_direct].
Qed.

Lemma extract_url_failure_witness :
  extractHostFromLine (L := RefLib.lib) "http://%zz/x [200]" = ("", "", false) /\
  snd (extractHostFromLine (L := RefLib.lib) " %zz/x [200]") = true.
Proof.
  split.
  - apply (proj1 (extract_url_failure RefLib.lib "http://%zz/x [200]"
                    "http://%zz/x" ["[200]"] eq_refl eq_refl)); reflexivity.
  - apply (proj2 (extract_url_failure RefLib.lib " %zz/x [200]"
                    "%zz/x" ["[200]"] eq_refl eq_refl)); reflexivity.
Defined.

(** C7, the claim as stated fails: the field [%zz/x] has no scheme and
    contains a slash, its parse as [http://%zz/x] fails, and extraction
    returns it whole with [ok = true]. *)
Lemma schemeless_url_failure_not_discarded :
  Contains "%zz/x" "://" = false /\
  Contains "%zz/x" "/" = true /\
  urlParse (NetLib := RefLib.lib) ("http://" ++ "%zz/x") = None /\
  extractHostFromLine (L := RefLib.lib) "%zz/x" = ("%zz/x", "", true).
Proof. repeat split; reflexivity. Qed.

(** C10 (as amended). [extractHostFromLine] strips no [#] comment: for a
    line whose trimmed text does not start with [#] and whose first field
    has neither ["://"] nor ["/"], extraction succeeds and host and port
    come from splitting the whole first field, [#] included; when the
    field has no colon and no leading bracket the host is the field
    itself. *)
Theorem extract_keeps_hash (L : NetLib) (line first : string)
    (rest : list string) :
  HasPrefix (TrimSpace line) "#" = false ->
  Fields (TrimSpace line) = first :: rest ->
  Contains first "://" = false ->
  Contains first "/" = false ->
  extractHostFromLine line =
    (let '(h, p) := stripPort first in (unbracket h, p, true)) /\
  snd (extractHostFromLine line) = true /\
  (HasPrefix first "[" = false -> Contains first ":" = false ->
   extractHostFromLine line = (first, "", true)).
Proof.
  intros Hh HF Hs Hp.
  rewrite (extract_direct line first rest Hh HF Hs Hp).
  split; [reflexivity|]. split; [apply extract_ok_of_direct|].
  intros Hb Hc.
  pose proof (Fields_noSpace (TrimSpace line)) as HA. rewrite HF in HA.
  inversion HA as [|? ? [Hne Hsp] _]; subst.
  rewrite (stripPort_plain first Hne Hsp Hb Hc).
  unfold unbracket. now rewrite Hb.
Qed.

Lemma extract_keeps_hash_witness :
  extractHostFromLine (L := RefLib.lib) "  example.com#frag  [200]" =
  ("example.com#frag", "", true).
Proof.
  apply (proj2 (proj2 (extract_keeps_hash RefLib.lib "  example.com#frag  [200]"
                         "example.com#frag" ["[200]"]
                         eq_refl eq_refl eq_refl eq_refl))); reflexivity.
Defined.

(** C10, the claim as stated fails: in [a:80#x] the [#] ends up in the
    port and the host is [a]; in [http://a#b] URL parsing drops the
    fragment; and [http://#x] does not start with [#] yet gives
    [ok = false]. *)
Lemma hash_not_always_in_host :
  extractHostFromLine (L := RefLib.lib) "a:80#x" = ("a", "80#x", true) /\
  extractHostFromLine (L := RefLib.lib) "http://a#b" = ("a", "", true) /\
  extractHostFromLine (L := RefLib.lib) "http://#x" = ("", "", false).
Proof. repeat split; reflexivity. Qed.

(** ** Host and port splitting *)

Lemma stripPort_fallback {L : NetLib} (h : string) :
  TrimSpace h <> "" ->
  HasPrefix (TrimSpace h) "[" = false ->
  SplitHostPort (TrimSpace h) = None ->
  stripPort h =
  let parts := Split (TrimSpace h) ":" in
  if (1 <? List.length parts)%nat && negb (isIP (lastElem parts))
  then (Join (removelast parts) ":", lastElem parts)
  else (TrimSpace h, "").
Proof.
  intros Hne Hb Hs. unfold stripPort.
  destruct (String.eqb_spec (TrimSpace h) ""); [contradiction|].
  now rewrite Hb, Hs.
Qed.

(** C6. When [net.SplitHostPort] fails on an unbracketed string,
    [stripPort] splits at the last colon exactly when the text after it is
    not an IP address.  That test does not protect a bare IPv6 literal:
    the text after its last colon is a group of hex digits, which is no
    address, so [::1] is split into host [:] and port [1], and
    [2001:db8::1] into host [2001:db8:] and port [1]. *)
Theorem stripPort_bare_ipv6 (L : NetLib) :
  (forall h,
     TrimSpace h <> "" ->
     HasPrefix (TrimSpace h) "[" = false ->
     SplitHostPort (TrimSpace h) = None ->
     stripPort h =
     let parts := Split (TrimSpace h) ":" in
     if (1 <? List.length parts)%nat && negb (isIP (lastElem parts))
     then (Join (removelast parts) ":", lastElem parts)
     else (TrimSpace h, "")) /\
  (ParseIP "1" = None ->
   SplitHostPort "::1" = None /\
   stripPort "::1" = (":", "1") /\
   stripPort "2001:db8::1" = ("2001:db8:", "1") /\
   extractHostFromLine "::1" = (":", "1", true) /\
   port (parseScopeLine "::1") = "1").
Proof.
  split; [intros h; apply stripPort_fallback|].
  intros H1.
  assert (A : stripPort "::1" = (":", "1")).
  { rewrite stripPort_fallback; try reflexivity; try discriminate.
    cbv [TrimSpace trimLeft trimRight]. simpl.
    unfold isIP. change (lastElem (Split "::1" ":")) with "1".
    now rewrite H1. }
  assert (B : stripPort "2001:db8::1" = ("2001:db8:", "1")).
  { rewrite stripPort_fallback; try reflexivity; try discriminate.
    unfold isIP. change (lastElem (Split (TrimSpace "2001:db8::1") ":")) with "1".
    now rewrite H1. }
  split; [reflexivity|]. split; [exact A|]. split; [exact B|]. split.
  - unfold extractHostFromLine.
    change (TrimSpace "::1") with "::1". simpl. now rewrite A.
  - unfold parseScopeLine. change (TrimSuffix (TrimSpace "::1") ".") with "::1".
    simpl. rewrite A. simpl.
    destruct (ParseIP (unbracket (TrimSuffix ":" "."))); reflexivity.
Qed.

Lemma stripPort_bare_ipv6_witness :
  stripPort (L := RefLib.lib) "::1" = (":", "1").
Proof.
  apply (proj2 (stripPort_bare_ipv6 RefLib.lib) eq_refl).
Defined.

(** ** Normalization *)

Section NormalizeFacts.
Context {L : NetLib}.

Lemma normalizeHost_fst (h : string) :
  fst (normalizeHost h) =
  if TrimSpace h =? "" then ""
  else match ParseIP (TrimSuffix (TrimSpace h) ".") with
       | Some ip => IPString ip
       | None => ToLower (asciiOrKeep (TrimSuffix (TrimSpace h) "."))
       end.
Proof.
  unfold normalizeHost. destruct (TrimSpace h =? ""); [reflexivity|].
  destruct (ParseIP _); reflexivity.
Qed.

Lemma normalizeHost_clean_ip (ip : IP) :
  (exists ip', ParseIP (IPString ip) = Some ip' /\ IPString ip' = IPString ip) ->
  TrimSpace (IPString ip) = IPString ip ->
  HasSuffix (IPString ip) "." = false ->
  fst (normalizeHost (IPString ip)) = IPString ip.
Proof.
  intros (ip' & E1 & E2) HT HS. rewrite normalizeHost_fst, HT.
  destruct (String.eqb_spec (IPString ip) "") as [E|_]; [now rewrite E|].
  now rewrite (TrimSuffix_noop _ _ HS), E1.
Qed.

Lemma normalizeHost_clean_name (d : string) :
  ParseIP (ToLower (asciiOrKeep d)) = None ->
  asciiOrKeep (ToLower (asciiOrKeep d)) = ToLower (asciiOrKeep d) ->
  TrimSpace (ToLower (asciiOrKeep d)) = ToLower (asciiOrKeep d) ->
  HasSuffix (ToLower (asciiOrKeep d)) "." = false ->
  fst (normalizeHost (ToLower (asciiOrKeep d))) = ToLower (asciiOrKeep d).
Proof.
  intros HP HA HT HS. rewrite normalizeHost_fst, HT.
  destruct (String.eqb_spec (ToLower (asciiOrKeep d)) "") as [E|_];
    [now rewrite E|].
  rewrite (TrimSuffix_noop _ _ HS), HP, HA. apply ToLower_idem.
Qed.

End NormalizeFacts.

(** C8 (as amended). [normalizeHost] applied to its own result [n] returns
    [n] when [n] has no white space at its ends, does not end with a dot,
    and reading [n] again changes nothing in the library steps: where the
    host was an IP literal, the canonical text of its address parses back
    to an address with the same text; where it was not, [n] is no IP
    literal and [idna.ToASCII] fails on [n] or returns [n]. *)
Theorem normalizeHost_idempotent_clean (L : NetLib) (h : string) :
  TrimSpace (fst (normalizeHost h)) = fst (normalizeHost h) ->
  HasSuffix (fst (normalizeHost h)) "." = false ->
  (forall ip, ParseIP (TrimSuffix (TrimSpace h) ".") = Some ip ->
     exists ip', ParseIP (IPString ip) = Some ip' /\
                 IPString ip' = IPString ip) ->
  (ParseIP (TrimSuffix (TrimSpace h) ".") = None ->
     ParseIP (fst (normalizeHost h)) = None /\
     asciiOrKeep (fst (normalizeHost h)) = fst (normalizeHost h)) ->
  fst (normalizeHost (fst (normalizeHost h))) = fst (normalizeHost h).
Proof.
  rewrite (normalizeHost_fst h).
  destruct (TrimSpace h =? ""); [reflexivity|].
  destruct (ParseIP (TrimSuffix (TrimSpace h) ".")) as [ip|] eqn:HP.
  - intros HT HS HI _. apply normalizeHost_clean_ip; auto.
  - intros HT HS _ HN. destruct (HN eq_refl) as [N1 N2].
    now apply normalizeHost_clean_name.
Qed.

(** C8, the claim as stated fails: [a..] normalizes to [a.], which
    normalizes to [a]; and [a .] normalizes to [a] followed by a space,
    which normalizes to [a]. *)
Lemma normalizeHost_not_idempotent :
  fst (normalizeHost (L := RefLib.lib) "a..") = "a." /\
  fst (normalizeHost (L := RefLib.lib) (fst (normalizeHost (L := RefLib.lib) "a.."))) = "a" /\
  fst (normalizeHost (L := RefLib.lib) "a .") = "a " /\
  fst (normalizeHost (L := RefLib.lib) (fst (normalizeHost (L := RefLib.lib) "a ."))) = "a".
Proof. repeat split; reflexivity. Qed.

(** ** The reference instance satisfies the library assumptions *)

Module RefLibFacts.
Import RefLib.

Lemma octet_roundtrip (a : ascii) : parseOctet (printOctet a) = Some a.
Proof. destruct a as [[] [] [] [] [] [] [] []]; vm_compute; reflexivity. Qed.

Lemma octet_digits (a : ascii) : allBytes isDigit (printOctet a) = true.
Proof. destruct a as [[] [] [] [] [] [] [] []]; vm_compute; reflexivity. Qed.

Lemma allBytes_app (f : ascii -> bool) (x y : string) :
  allBytes f (x ++ y) = allBytes f x && allBytes f y.
Proof.
  induction x as [|c x IH]; simpl; [reflexivity|].
  now rewrite IH, andb_assoc.
Qed.

Lemma allBytes_impl (f g : ascii -> bool) (s : string) :
  (forall c, f c = true -> g c = true) ->
  allBytes f s = true -> allBytes g s = true.
Proof.
  intros Hfg. induction s as [|c s IH]; simpl; [reflexivity|].
  intros H. apply andb_true_iff in H. destruct H as [Hc Hs].
  now rewrite (Hfg c Hc), (IH Hs).
Qed.

Lemma Contains_allBytes (f : ascii -> bool) (c : ascii) (s : string) :
  f c = false -> allBytes f s = true -> Contains s (String c "") = false.
Proof.
  intros Hc. induction s as [|a s IH]; [reflexivity|].
  simpl allBytes. intros H. apply andb_true_iff in H. destruct H as [Ha Hs].
  change (Contains (String a s) (String c "")) with
    (HasPrefix (String a s) (String c "") || Contains s (String c "")).
  rewrite (IH Hs), orb_false_r. simpl.
  destruct (Ascii.eqb_spec c a) as [->|_]; [congruence|reflexivity].
Qed.

Lemma splitGo_digits_dot (x rest : string) :
  allBytes isDigit x = true ->
  splitGo "." 0 (x ++ String "." rest) = x :: splitGo "." 0 rest.
Proof.
  induction x as [|c x IH]; intros H.
  - reflexivity.
  - simpl in H. apply andb_true_iff in H. destruct H as [Hc Hx].
    change (splitGo "." 0 (String c x ++ String "." rest)) with
      (if HasPrefix (String c (x ++ String "." rest)) "."
       then "" :: splitGo "." 0 (x ++ String "." rest)
       else consHead c (splitGo "." 0 (x ++ String "." rest))).
    rewrite (IH Hx).
    replace (HasPrefix (String c (x ++ String "." rest)) ".")
      with (Ascii.eqb "." c) by (cbn [HasPrefix]; now rewrite andb_true_r).
    destruct (Ascii.eqb_spec "." c) as [<-|_]; [discriminate Hc|reflexivity].
Qed.

Lemma digits_no_dot (x : string) :
  allBytes isDigit x = true -> Contains x "." = false.
Proof. now apply Contains_allBytes. Qed.

Lemma parseIP_ipString (ip : IPv4) : parseIP (ipString ip) = Some ip.
Proof.
  destruct ip as [[[a b] c] d]. unfold parseIP, ipString.
  pose proof (octet_digits a) as Da. pose proof (octet_digits b) as Db.
  pose proof (octet_digits c) as Dc. pose proof (octet_digits d) as Dd.
  assert (E : allBytes digitOrDot
                (printOctet a ++ "." ++ printOctet b ++ "." ++
                 printOctet c ++ "." ++ printOctet d) = true).
  { assert (W : forall x, allBytes isDigit x = true -> allBytes digitOrDot x = true).
    { intros x. apply allBytes_impl. intros k Hk. unfold digitOrDot. now rewrite Hk. }
    rewrite !allBytes_app, (W _ Da), (W _ Db), (W _ Dc), (W _ Dd). reflexivity. }
  rewrite (Contains_allBytes digitOrDot ":" _ eq_refl E).
  unfold parseIPv4, Split.
  change (printOctet a ++ "." ++ printOctet b ++ "." ++ printOctet c ++ "." ++ printOctet d)
    with (printOctet a ++ String "." (printOctet b ++ String "." (printOctet c ++ String "." (printOctet d)))).
  rewrite (splitGo_digits_dot _ _ Da), (splitGo_digits_dot _ _ Db),
    (splitGo_digits_dot _ _ Dc), (splitGo_none _ _ (digits_no_dot _ Dd)).
  now rewrite !octet_roundtrip.
Qed.

Lemma splitGo_nonempty (c : ascii) (s : string) : splitGo (String c "") 0 s <> [].
Proof.
  destruct s as [|a s]; [discriminate|].
  change (splitGo (String c "") 0 (String a s)) with
    (if HasPrefix (String a s) (String c "")
     then "" :: splitGo (String c "") 0 s
     else consHead a (splitGo (String c "") 0 s)).
  destruct (HasPrefix _ _); [discriminate|].
  destruct (splitGo (String c "") 0 s); discriminate.
Qed.

Lemma splitGo_join (c : ascii) (s : string) :
  Join (splitGo (String c "") 0 s) (String c "") = s.
Proof.
  unfold Join. induction s as [|a s IH]; [reflexivity|].
  change (splitGo (String c "") 0 (String a s)) with
    (if HasPrefix (String a s) (String c "")
     then "" :: splitGo (String c "") 0 s
     else consHead a (splitGo (String c "") 0 s)).
  pose proof (splitGo_nonempty c s) as Hne.
  destruct (splitGo (String c "") 0 s) as [|x xs]; [contradiction|].
  replace (HasPrefix (String a s) (String c ""))
    with (Ascii.eqb c a) by (cbn [HasPrefix]; now rewrite andb_true_r).
  destruct (Ascii.eqb_spec c a) as [->|_].
  - change (String.concat (String a "") ("" :: x :: xs))
      with (String a (String.concat (String a "") (x :: xs))).
    now rewrite IH.
  - cbn [consHead]. rewrite <- IH. destruct xs; reflexivity.
Qed.

End RefLibFacts.

Lemma normalizeHost_idempotent_clean_witness :
  fst (normalizeHost (L := RefLib.lib)
         (fst (normalizeHost (L := RefLib.lib) " Example.COM. "))) =
  fst (normalizeHost (L := RefLib.lib) " Example.COM. ") /\
  fst (normalizeHost (L := RefLib.lib)
         (fst (normalizeHost (L := RefLib.lib) " 10.0.0.1. "))) =
  fst (normalizeHost (L := RefLib.lib) " 10.0.0.1. ").
Proof.
  split.
  - apply (normalizeHost_idempotent_clean RefLib.lib " Example.COM. ");
      [reflexivity|reflexivity| |].
    + intros ip H. discriminate H.
    + intros _. split; reflexivity.
  - apply (normalizeHost_idempotent_clean RefLib.lib " 10.0.0.1. ");
      [reflexivity|reflexivity| |].
    + intros ip H. injection H as <-.
      exists ("010", "000", "000", "001")%char. split; reflexivity.
    + intros H. discriminate H.
Defined.

(** * Further properties of the loader, the matcher and the line filter *)

(** ** The scope loader *)

Lemma loadScope_app {L : NetLib} (l1 l2 : list string) :
  loadScope (l1 ++ l2)%list = (loadScope l1 ++ loadScope l2)%list.
Proof.
  induction l1 as [|raw0 l1 IH]; [reflexivity|].
  cbn [loadScope app].
  destruct (TrimSpace raw0 =? ""); [exact IH|].
  destruct (HasPrefix (TrimSpace raw0) "#"); [exact IH|].
  match goal with |- context [if ?c then _ else _] => destruct c end;
    [exact IH|].
  cbn [app]. now rewrite IH.
Qed.

Lemma loadScope_length {L : NetLib} (lines : list string) :
  List.length (loadScope lines) <= List.length lines.
Proof.
  induction lines as [|raw0 rest IH]; [apply le_n|].
  cbn [loadScope].
  destruct (TrimSpace raw0 =? ""); [simpl; lia|].
  destruct (HasPrefix (TrimSpace raw0) "#"); [simpl; lia|].
  match goal with |- context [if ?c then _ else _] => destruct c end;
    simpl; lia.
Qed.

(** X1. The loader reads each line on its own and keeps the file order:
    loading two runs of lines one after the other gives the entries of the
    first followed by the entries of the second, and a file never yields
    more entries than it has lines. *)
Theorem loadScope_linewise (L : NetLib) (l1 l2 : list string) :
  loadScope (l1 ++ l2)%list = (loadScope l1 ++ loadScope l2)%list /\
  List.length (loadScope l1) <= List.length l1.
Proof. split; [apply loadScope_app|apply loadScope_length]. Qed.

(** ** The matcher over a scope list *)

Lemma existsb_perm {A : Type} (f : A -> bool) (l l' : list A) :
  Permutation l l' -> existsb f l = existsb f l'.
Proof.
  intros HP. induction HP as [|x l l' _ IH|x y l|l l' l'' _ IH1 _ IH2]; simpl.
  - reflexivity.
  - now rewrite IH.
  - destruct (f x), (f y); reflexivity.
  - now rewrite IH1.
Qed.

(** X2. The verdict does not depend on how the scope is arranged: over
    two scope lists put together it is the disjunction of the two
    verdicts, so adding entries never turns a match into a miss, and any
    reordering of the entries gives the same verdict. *)
Theorem matchHost_scope_order (L : NetLib) (host p : string) :
  (forall s1 s2,
     matchHost host p (s1 ++ s2)%list = matchHost host p s1 || matchHost host p s2) /\
  (forall s1 s2, Permutation s1 s2 -> matchHost host p s1 = matchHost host p s2) /\
  matchHost host p [] = false.
Proof.
  split; [|split].
  - intros s1 s2. rewrite !matchHost_existsb, existsb_app.
    destruct (negb (host =? "")); simpl; [reflexivity|reflexivity].
  - intros s1 s2 HP. rewrite !matchHost_existsb.
    now rewrite (existsb_perm _ _ _ HP).
  - rewrite matchHost_existsb. apply andb_false_r.
Qed.

Lemma matchHost_scope_order_witness :
  matchHost (L := RefLib.lib) "api.test.com" ""
    (loadScope (L := RefLib.lib) ["example.com"; "*.test.com"]) =
  matchHost (L := RefLib.lib) "api.test.com" ""
    (loadScope (L := RefLib.lib) ["*.test.com"; "example.com"]).
Proof.
  apply (proj1 (proj2 (matchHost_scope_order RefLib.lib "api.test.com" ""))).
  apply perm_swap.
Defined.

Lemma entryMatches_noport {L : NetLib} (host p q : string) (e : scopeEntry) :
  port e = "" -> entryMatches host p e = entryMatches host q e.
Proof. intros H. unfold entryMatches, portOK. now rewrite H. Qed.

Lemma entryMatches_empty_port {L : NetLib} (host p : string) (e : scopeEntry) :
  entryMatches host "" e = true -> entryMatches host p e = true.
Proof.
  unfold entryMatches, portOK. intros H. apply andb_true_iff in H.
  destruct H as [-> H]. simpl.
  destruct (String.eqb_spec (port e) "") as [_|N]; [reflexivity|].
  discriminate H.
Qed.

(** X3. A candidate without port is the hardest to match: a host that
    matches with the empty port string matches with every port string;
    and over a scope whose entries carry no port the verdict is the same
    for all port strings. *)
Theorem matchHost_port_monotone (L : NetLib) (host : string)
    (scope : list scopeEntry) :
  (forall p, matchHost host "" scope = true -> matchHost host p scope = true) /\
  (Forall (fun e => port e = "") scope ->
   forall p q, matchHost host p scope = matchHost host q scope).
Proof.
  split.
  - intros p. rewrite !matchHost_existsb, !andb_true_iff, !existsb_exists.
    intros [HE (e & HIn & HM)]. split; [assumption|].
    exists e. split; [assumption|]. now apply entryMatches_empty_port.
  - intros HF p q. rewrite !matchHost_existsb. f_equal.
    induction HF as [|e rest He _ IH]; simpl; [reflexivity|].
    now rewrite IH, (entryMatches_noport host p q e He).
Qed.

Lemma matchHost_port_monotone_witness :
  matchHost (L := RefLib.lib) "example.com" "8443"
    (loadScope (L := RefLib.lib) ["example.com:80"; "example.com"]) = true.
Proof.
  apply (proj1 (matchHost_port_monotone RefLib.lib "example.com"
                  (loadScope (L := RefLib.lib) ["example.com:80"; "example.com"]))).
  reflexivity.
Defined.

Lemma EqualFold_refl (a : string) : EqualFold a a = true.
Proof. unfold EqualFold. apply String.eqb_refl. Qed.

Lemma equalHost_refl (a : string) : equalHost a a = true.
Proof. unfold equalHost. apply EqualFold_refl. Qed.

Lemma portVerdict_self {L : NetLib} (e : scopeEntry) :
  portVerdict e (port e) = Some true.
Proof.
  unfold portVerdict. rewrite String.eqb_refl.
  destruct (negb (port e =? "")); reflexivity.
Qed.

(** X4. An entry matches what it names: an [Exact] entry with a non-empty
    base matches that base with the entry's own port, whether or not the
    base is an IP literal; a [LeadingWildcard] entry whose base is a
    non-empty name and no IP literal matches the base itself. *)
Theorem matchHost_self (L : NetLib) (e : scopeEntry) :
  base e <> "" ->
  (kind e = scopeExact -> matchHost (base e) (port e) [e] = true) /\
  (kind e = scopeLeadingWildcard -> ParseIP (base e) = None ->
   matchHost (base e) (port e) [e] = true).
Proof.
  intros HB. unfold matchHost.
  destruct (String.eqb_spec (base e) ""); [contradiction|]. split.
  - intros HK. destruct (ParseIP (base e)) as [ip|] eqn:HP.
    + cbn [matchIPLoop]. rewrite HK, HP. cbn [scopeKind_eqb negb].
      rewrite EqualFold_refl, portVerdict_self.
      destruct (IPEqual ip ip); reflexivity.
    + cbn [matchNameLoop]. rewrite HK, equalHost_refl, portVerdict_self.
      reflexivity.
  - intros HK HP. rewrite HP. cbn [matchNameLoop].
    rewrite HK. unfold matchLeadingWildcard.
    rewrite equalHost_refl, portVerdict_self. reflexivity.
Qed.

Lemma matchHost_self_witness :
  matchHost (L := RefLib.lib) "10.0.0.1" "80"
    [parseScopeLine (L := RefLib.lib) "10.0.0.1:80"] = true.
Proof.
  apply (proj1 (matchHost_self RefLib.lib
                  (parseScopeLine (L := RefLib.lib) "10.0.0.1:80")
                  ltac:(discriminate))).
  reflexivity.
Defined.

(** ** The line filter *)

Section FilterFacts.
Context {L : NetLib}.

Lemma processLine_verbatim (scope : list scopeEntry) (reverse : bool)
    (line out : string) :
  processLine scope reverse line = Some out -> out = line.
Proof.
  rewrite processLine_cases.
  destruct (extractHostFromLine line) as [[host p] ok]. cbv zeta.
  destruct (ok && negb (fst (normalizeHost host) =? "")); [|discriminate].
  destruct (Bool.eqb _ reverse); [discriminate|]. congruence.
Qed.

Lemma processLines_filter (lines : list string) (scope : list scopeEntry)
    (reverse : bool) :
  processLines lines scope reverse = filter (written scope reverse) lines.
Proof.
  induction lines as [|line rest IH]; [reflexivity|].
  cbn [processLines filter]. unfold written at 1.
  destruct (processLine scope reverse line) as [out|] eqn:E; [|exact IH].
  now rewrite (processLine_verbatim _ _ _ _ E), IH.
Qed.

Lemma written_exclusive (scope : list scopeEntry) (line : string) :
  written scope false line && written scope true line = false.
Proof.
  unfold written. rewrite !processLine_cases.
  destruct (extractHostFromLine line) as [[host p] ok]. cbv zeta.
  destruct (ok && negb (fst (normalizeHost host) =? "")); [|reflexivity].
  destruct (matchHost (fst (normalizeHost host)) p scope); reflexivity.
Qed.

Lemma written_cover (scope : list scopeEntry) (line : string) :
  written scope false line || written scope true line =
  snd (extractHostFromLine line) &&
  negb (fst (normalizeHost (fst (fst (extractHostFromLine line)))) =? "").
Proof.
  unfold written. rewrite !processLine_cases.
  destruct (extractHostFromLine line) as [[host p] ok]. cbn [fst snd]. cbv zeta.
  destruct (ok && negb (fst (normalizeHost host) =? "")); [|reflexivity].
  destruct (matchHost (fst (normalizeHost host)) p scope); reflexivity.
Qed.

End FilterFacts.

(** X5. [processLines] writes input lines unchanged and in input order:
    its output is the input with some lines left out, whether a line is
    left out depends on that line alone, and filtering two runs of lines
    one after the other gives the two outputs one after the other. *)
Theorem processLines_sublist (L : NetLib) (scope : list scopeEntry)
    (reverse : bool) :
  (forall lines,
     processLines lines scope reverse =
     filter (fun line => match processLine scope reverse line with
                         | Some _ => true
                         | None => false
                         end) lines) /\
  (forall lines out,
     In out (processLines lines scope reverse) ->
     In out lines /\ processLine scope reverse out = Some out) /\
  (forall l1 l2,
     processLines (l1 ++ l2)%list scope reverse =
     (processLines l1 scope reverse ++ processLines l2 scope reverse)%list).
Proof.
  split; [exact (fun lines => processLines_filter lines scope reverse)|]. split.
  - intros lines out. rewrite processLines_filter, filter_In.
    intros [HIn HW]. split; [assumption|]. unfold written in HW.
    destruct (processLine scope reverse out) as [o|] eqn:E; [|discriminate].
    now rewrite (processLine_verbatim _ _ _ _ E).
  - intros l1 l2. rewrite !processLines_filter. apply filter_app.
Qed.

Lemma processLines_sublist_witness :
  In "test.com" readmeUrls /\
  processLine (L := RefLib.lib) readmeScope false "test.com" = Some "test.com".
Proof.
  apply (proj1 (proj2 (processLines_sublist RefLib.lib readmeScope false))
           readmeUrls "test.com").
  vm_compute. tauto.
Defined.

(** X6. The two modes split the input: no line is written both without
    and with inversion, and a line is written in one of the two modes
    exactly when a host is extracted from it and its normalized host is
    not empty; all other lines are written in neither mode. *)
Theorem processLines_modes_partition (L : NetLib) (scope : list scopeEntry)
    (lines : list string) (line : string) :
  ~ (In line (processLines lines scope false) /\
     In line (processLines lines scope true)) /\
  (In line (processLines lines scope false) \/
   In line (processLines lines scope true) <->
   In line lines /\
   snd (extractHostFromLine line) = true /\
   fst (normalizeHost (fst (fst (extractHostFromLine line)))) <> "").
Proof.
  rewrite !processLines_filter, !filter_In.
  pose proof (written_exclusive scope line) as HX.
  pose proof (written_cover scope line) as HC.
  destruct (written scope false line), (written scope true line);
    simpl in HX, HC; try discriminate HX; symmetry in HC.
  - apply andb_true_iff in HC. destruct HC as [H1 H2].
    apply negb_true_iff in H2. split; [intros [[_ A] [_ B]]; congruence|].
    split.
    + intros [[HIn _]|[_ A]]; [|discriminate A]. repeat split; try assumption.
      intros E. rewrite E in H2. discriminate H2.
    + intros (HIn & _ & _). left. now split.
  - apply andb_true_iff in HC. destruct HC as [H1 H2].
    apply negb_true_iff in H2. split; [intros [[_ A] [_ B]]; congruence|].
    split.
    + intros [[_ A]|[HIn _]]; [discriminate A|]. repeat split; try assumption.
      intros E. rewrite E in H2. discriminate H2.
    + intros (HIn & _ & _). right. now split.
  - split; [intros [[_ A] [_ B]]; congruence|]. split.
    + intros [[_ A]|[_ A]]; discriminate A.
    + intros (_ & H1 & H2). rewrite H1 in HC. simpl in HC.
      apply negb_false_iff, String.eqb_eq in HC. contradiction.
Qed.

(** ** Strings put together and taken apart *)

Lemma sapp_assoc (a b c : string) : (a ++ b) ++ c = a ++ (b ++ c).
Proof. induction a as [|x a IH]; simpl; [reflexivity|now rewrite IH]. Qed.

Lemma sapp_nil_r (a : string) : a ++ "" = a.
Proof. induction a as [|x a IH]; simpl; [reflexivity|now rewrite IH]. Qed.

Lemma slength_app (a b : string) :
  String.length (a ++ b) = String.length a + String.length b.
Proof. induction a as [|x a IH]; simpl; [reflexivity|now rewrite IH]. Qed.

Lemma take_app (a b : string) : take (String.length a) (a ++ b) = a.
Proof. induction a as [|x a IH]; simpl; [now destruct b|now rewrite IH]. Qed.

Lemma drop_app (a b : string) : drop (String.length a) (a ++ b) = b.
Proof. induction a as [|x a IH]; simpl; [reflexivity|exact IH]. Qed.

Lemma take_drop (n : nat) (s : string) : take n s ++ drop n s = s.
Proof.
  revert s. induction n as [|n IH]; intros [|c s]; simpl; try reflexivity.
  now rewrite IH.
Qed.

Lemma HasPrefix_app (p s : string) : HasPrefix (p ++ s) p = true.
Proof.
  induction p as [|c p IH]; [reflexivity|].
  cbn [append HasPrefix]. now rewrite Ascii.eqb_refl, IH.
Qed.

Lemma HasPrefix_inv (s p : string) :
  HasPrefix s p = true -> exists t, s = p ++ t.
Proof.
  revert s. induction p as [|c p IH]; intros s H.
  - now exists s.
  - destruct s as [|d s]; [discriminate H|]. cbn [HasPrefix] in H.
    apply andb_true_iff in H. destruct H as [E H].
    apply Ascii.eqb_eq in E. subst d. destruct (IH s H) as [t ->].
    now exists t.
Qed.

Lemma TrimPrefix_app (p s : string) : TrimPrefix (p ++ s) p = s.
Proof. unfold TrimPrefix. rewrite HasPrefix_app. apply drop_app. Qed.

Lemma TrimSuffix_app (s suf : string) : TrimSuffix (s ++ suf) suf = s.
Proof.
  unfold TrimSuffix. rewrite HasSuffix_app, slength_app.
  replace (String.length s + String.length suf - String.length suf)
    with (String.length s) by lia.
  apply take_app.
Qed.

Lemma Contains_byte_cons (a c : ascii) (s : string) :
  Contains (String a s) (String c "") = Ascii.eqb c a || Contains s (String c "").
Proof.
  change (Contains (String a s) (String c "")) with
    (HasPrefix (String a s) (String c "") || Contains s (String c "")).
  cbn [HasPrefix]. now rewrite andb_true_r.
Qed.

Lemma Contains_byte_app (c : ascii) (a b : string) :
  Contains (a ++ b) (String c "") =
  Contains a (String c "") || Contains b (String c "").
Proof.
  induction a as [|x a IH].
  - reflexivity.
  - cbn [append]. rewrite !Contains_byte_cons, IH. apply orb_assoc.
Qed.

Lemma LastIndex_byte_cons (a c : ascii) (s : string) :
  LastIndex (String a s) (String c "") =
  match LastIndex s (String c "") with
  | Some i => Some (S i)
  | None => if Ascii.eqb c a then Some 0 else None
  end.
Proof.
  change (LastIndex (String a s) (String c "")) with
    (match LastIndex s (String c "") with
     | Some i => Some (S i)
     | None => if HasPrefix (String a s) (String c "") then Some 0 else None
     end).
  cbn [HasPrefix]. now rewrite andb_true_r.
Qed.

Lemma LastIndex_app_last (c : ascii) (x rest : string) :
  Contains rest (String c "") = false ->
  LastIndex (x ++ String c rest) (String c "") = Some (String.length x).
Proof.
  intros H. induction x as [|a x IH].
  - cbn [append]. rewrite LastIndex_byte_cons, (LastIndex_none _ _ H).
    now rewrite Ascii.eqb_refl.
  - cbn [append]. now rewrite LastIndex_byte_cons, IH.
Qed.

Lemma LastIndex_split (c : ascii) (s : string) (i : nat) :
  LastIndex s (String c "") = Some i ->
  s = take i s ++ String c (drop (i + 1) s) /\
  Contains (drop (i + 1) s) (String c "") = false.
Proof.
  revert i. induction s as [|a s IH]; intros i H.
  - discriminate H.
  - rewrite LastIndex_byte_cons in H.
    destruct (LastIndex s (String c "")) as [j|] eqn:E.
    + injection H as <-. destruct (IH j eq_refl) as [E1 E2].
      cbn [take drop Nat.add append]. split; [f_equal; exact E1|exact E2].
    + destruct (Ascii.eqb_spec c a) as [->|_]; [|discriminate H].
      injection H as <-. cbn [take drop Nat.add append].
      split; [reflexivity|].
      destruct (Contains s (String a "")) eqn:C; [|reflexivity].
      exfalso. clear IH. induction s as [|b s IHs]; [discriminate C|].
      rewrite LastIndex_byte_cons in E. rewrite Contains_byte_cons in C.
      destruct (LastIndex s (String a "")); [discriminate E|].
      destruct (Ascii.eqb a b); [discriminate E|]. now apply IHs.
Qed.

Lemma concat_removelast (sep : string) (l : list string) :
  (1 < List.length l)%nat ->
  String.concat sep l = String.concat sep (removelast l) ++ sep ++ lastElem l.
Proof.
  induction l as [|x l IH]; simpl List.length; [lia|].
  intros H. destruct l as [|y l]; [simpl in H; lia|].
  destruct l as [|z l].
  - reflexivity.
  - assert (H' : (1 < List.length (y :: z :: l))%nat) by (simpl; lia).
    specialize (IH H').
    change (String.concat sep (x :: y :: z :: l))
      with (x ++ sep ++ String.concat sep (y :: z :: l)).
    rewrite IH.
    change (lastElem (x :: y :: z :: l)) with (lastElem (y :: z :: l)).
    change (removelast (x :: y :: z :: l)) with (x :: removelast (y :: z :: l)).
    destruct (removelast (y :: z :: l)) as [|r rs] eqn:R.
    + discriminate R.
    + change (String.concat sep (x :: r :: rs))
        with (x ++ sep ++ String.concat sep (r :: rs)).
      now rewrite !sapp_assoc.
Qed.

Lemma drop_0 (s : string) : drop 0 s = s.
Proof. now destruct s. Qed.

Lemma drop_app_S (a b : string) (c : ascii) :
  drop (String.length a + 1) (a ++ String c b) = b.
Proof. induction a as [|x a IH]; simpl; [reflexivity|exact IH]. Qed.

Lemma take_app_S (a b : string) (c : ascii) :
  take (String.length a + 1) (a ++ String c b) = a ++ String c "".
Proof.
  induction a as [|x a IH]; simpl; [now destruct b|now rewrite IH].
Qed.

Lemma HasPrefix_Contains (s sub : string) :
  Contains s sub = false -> HasPrefix s sub = false.
Proof.
  destruct s; simpl; intros H; apply orb_false_iff in H; now destruct H.
Qed.

Lemma splitGo_pieces (c : ascii) (s : string) :
  Forall (fun x => Contains x (String c "") = false) (splitGo (String c "") 0 s).
Proof.
  induction s as [|a s IH]; [repeat constructor|].
  change (splitGo (String c "") 0 (String a s)) with
    (if HasPrefix (String a s) (String c "")
     then "" :: splitGo (String c "") 0 s
     else consHead a (splitGo (String c "") 0 s)).
  replace (HasPrefix (String a s) (String c ""))
    with (Ascii.eqb c a) by (cbn [HasPrefix]; now rewrite andb_true_r).
  destruct (Ascii.eqb c a) eqn:E; [now constructor|].
  destruct (splitGo (String c "") 0 s) as [|x xs]; cbn [consHead].
  - constructor; [|constructor]. now rewrite Contains_byte_cons, E.
  - inversion IH as [|? ? Hx Hxs]; subst. constructor; [|assumption].
    now rewrite Contains_byte_cons, E, Hx.
Qed.

Lemma lastElem_Forall (P : string -> Prop) (l : list string) :
  l <> [] -> Forall P l -> P (lastElem l).
Proof.
  induction l as [|x l IH]; [congruence|].
  intros _ HF. inversion HF as [|? ? Hx Hl]; subst.
  destruct l as [|y l]; [exact Hx|]. apply IH; [discriminate|assumption].
Qed.

Lemma SplitHostPort_plain (s host p : string) :
  HasPrefix s "[" = false ->
  SplitHostPort s = Some (host, p) ->
  s = host ++ ":" ++ p /\ Contains host ":" = false /\ Contains p ":" = false.
Proof.
  intros Hb. unfold SplitHostPort.
  destruct (LastIndex s ":") as [i|] eqn:E; [|discriminate].
  rewrite Hb. destruct (Contains (take i s) ":") eqn:C; [discriminate|].
  destruct (Contains (drop 0 s) "["); [discriminate|].
  destruct (Contains (drop 0 s) "]"); [discriminate|].
  intros H. injection H as <- <-.
  destruct (LastIndex_split _ _ _ E) as [E1 E2]. now repeat split.
Qed.

Section StripPortFacts.
Context {L : NetLib}.

Lemma stripPort_lossless_aux (h : string) :
  HasPrefix (TrimSpace h) "[" = false ->
  (TrimSpace h = fst (stripPort h) ++ ":" ++ snd (stripPort h) /\
   Contains (snd (stripPort h)) ":" = false) \/
  (fst (stripPort h) = TrimSpace h /\ snd (stripPort h) = "").
Proof.
  intros Hb. unfold stripPort. rewrite Hb.
  destruct (String.eqb_spec (TrimSpace h) "") as [E|_].
  { right. now rewrite E. }
  destruct (SplitHostPort (TrimSpace h)) as [[host p]|] eqn:S.
  { left. destruct (SplitHostPort_plain _ _ _ Hb S) as (A & _ & B).
    cbn [fst snd]. now split. }
  unfold Split.
  destruct ((1 <? List.length (splitGo ":" 0 (TrimSpace h)))%nat) eqn:N;
    [|right; now split].
  destruct (isIP (lastElem (splitGo ":" 0 (TrimSpace h)))); cbn [andb negb];
    [right; now split|].
  left. cbn [fst snd]. apply Nat.ltb_lt in N. split.
  - unfold Join. rewrite <- (concat_removelast ":" _ N).
    symmetry. apply (RefLibFacts.splitGo_join ":").
  - apply (lastElem_Forall (fun x => Contains x ":" = false)).
    + apply RefLibFacts.splitGo_nonempty.
    + apply splitGo_pieces.
Qed.

Lemma stripPort_host_port_aux (host p : string) :
  TrimSpace (host ++ ":" ++ p) = host ++ ":" ++ p ->
  Contains (host ++ ":" ++ p) "[" = false ->
  Contains (host ++ ":" ++ p) "]" = false ->
  Contains host ":" = false ->
  Contains p ":" = false ->
  stripPort (host ++ ":" ++ p) = (host, p).
Proof.
  intros HT Hl Hr Hh Hp. unfold stripPort. rewrite HT.
  destruct (String.eqb_spec (host ++ ":" ++ p) "") as [E|_].
  { destruct host; discriminate E. }
  rewrite (HasPrefix_Contains _ _ Hl). unfold SplitHostPort.
  cbn [append]. cbn [append] in Hl, Hr.
  rewrite (LastIndex_app_last ":" host p Hp).
  rewrite (HasPrefix_Contains _ _ Hl).
  replace (take (String.length host) (host ++ String ":" p)) with host
    by (symmetry; apply take_app).
  rewrite Hh, drop_0, Hl, Hr, drop_app_S. reflexivity.
Qed.

Lemma stripPort_bracket_aux (a rest : string) :
  TrimSpace ("[" ++ a ++ "]" ++ rest) = "[" ++ a ++ "]" ++ rest ->
  Contains rest "]" = false ->
  stripPort ("[" ++ a ++ "]" ++ rest) =
  ("[" ++ a ++ "]", if HasPrefix rest ":" then drop 1 rest else "").
Proof.
  intros HT Hr. unfold stripPort. rewrite HT.
  assert (Hb : HasPrefix ("[" ++ a ++ "]" ++ rest) "[" = true) by reflexivity.
  assert (Hn : ("[" ++ a ++ "]" ++ rest =? "") = false) by reflexivity.
  rewrite Hn, Hb.
  change ("[" ++ a ++ "]" ++ rest) with (String "[" a ++ String "]" rest).
  rewrite (LastIndex_app_last "]" (String "[" a) rest Hr).
  rewrite take_app_S, drop_app_S. unfold TrimPrefix.
  destruct (HasPrefix rest ":"); reflexivity.
Qed.

End StripPortFacts.

Lemma unbracket_bracketed (s : string) : unbracket ("[" ++ s ++ "]") = s.
Proof.
  unfold unbracket.
  assert (Hp : HasPrefix ("[" ++ s ++ "]") "[" = true) by reflexivity.
  assert (Hs : HasSuffix ("[" ++ s ++ "]") "]" = true).
  { change ("[" ++ s ++ "]") with (("[" ++ s) ++ "]"). apply HasSuffix_app. }
  rewrite Hp, Hs. cbn [andb]. unfold stripBrackets.
  rewrite (TrimPrefix_app "[" (s ++ "]")). apply TrimSuffix_app.
Qed.

Lemma Fields_single (s : string) :
  s <> "" -> allBytes notSpace s = true -> Fields s = [s].
Proof.
  induction s as [|c s IH]; [congruence|]. intros _ H.
  cbn [allBytes] in H. apply andb_true_iff in H. destruct H as [Hc Hs].
  unfold notSpace in Hc. apply negb_true_iff in Hc.
  change (Fields (String c s)) with
    (if isSpace c then Fields s
     else match s with
          | EmptyString => [String c ""]
          | String c' _ =>
              if isSpace c' then String c "" :: Fields s
              else consHead c (Fields s)
          end).
  rewrite Hc. destruct s as [|c' s']; [reflexivity|].
  rewrite (IH ltac:(discriminate) Hs).
  cbn [allBytes] in Hs. apply andb_true_iff in Hs. destruct Hs as [Hc' _].
  unfold notSpace in Hc'. apply negb_true_iff in Hc'. now rewrite Hc'.
Qed.

Lemma Contains_byte_true (c : ascii) (a b : string) :
  Contains (a ++ String c b) (String c "") = true.
Proof.
  rewrite Contains_byte_app, Contains_byte_cons, Ascii.eqb_refl.
  apply orb_true_r.
Qed.

(** X7. On text that does not start with a bracket [stripPort] loses
    nothing: either it splits at the last colon, so that host, a colon and
    port put together give back the trimmed input and the port has no
    colon, or it returns the whole trimmed input as host with no port. *)
Theorem stripPort_lossless (L : NetLib) (h : string) :
  HasPrefix (TrimSpace h) "[" = false ->
  (TrimSpace h = fst (stripPort h) ++ ":" ++ snd (stripPort h) /\
   Contains (snd (stripPort h)) ":" = false) \/
  (fst (stripPort h) = TrimSpace h /\ snd (stripPort h) = "").
Proof. apply stripPort_lossless_aux. Qed.

Lemma stripPort_lossless_witness :
  (TrimSpace " a:b:c " =
     fst (stripPort (L := RefLib.lib) " a:b:c ") ++ ":" ++
     snd (stripPort (L := RefLib.lib) " a:b:c ") /\
   Contains (snd (stripPort (L := RefLib.lib) " a:b:c ")) ":" = false) \/
  (fst (stripPort (L := RefLib.lib) " a:b:c ") = TrimSpace " a:b:c " /\
   snd (stripPort (L := RefLib.lib) " a:b:c ") = "").
Proof. apply (stripPort_lossless RefLib.lib " a:b:c "). reflexivity. Defined.

(** X8. [stripPort] undoes the joining of a host and a port with a colon:
    for a host and a port without colon, in a text without brackets and
    without white space at its ends, it returns exactly that host and that
    port. *)
Theorem stripPort_host_port (L : NetLib) (host p : string) :
  TrimSpace (host ++ ":" ++ p) = host ++ ":" ++ p ->
  Contains (host ++ ":" ++ p) "[" = false ->
  Contains (host ++ ":" ++ p) "]" = false ->
  Contains host ":" = false ->
  Contains p ":" = false ->
  stripPort (host ++ ":" ++ p) = (host, p).
Proof. apply stripPort_host_port_aux. Qed.

Lemma stripPort_host_port_witness :
  stripPort (L := RefLib.lib) ("example.com" ++ ":" ++ "8080") =
  ("example.com", "8080").
Proof.
  apply (stripPort_host_port RefLib.lib "example.com" "8080"); reflexivity.
Defined.


(** ** Trimming *)

Lemma trimLeft_idem (s : string) : trimLeft (trimLeft s) = trimLeft s.
Proof.
  induction s as [|c s IH]; [reflexivity|]. cbn [trimLeft].
  destruct (isSpace c) eqn:E; [exact IH|]. cbn [trimLeft]. now rewrite E.
Qed.

Lemma trimLeft_length (s : string) : String.length (trimLeft s) <= String.length s.
Proof.
  induction s as [|c s IH]; [apply le_n|]. cbn [trimLeft].
  destruct (isSpace c); simpl; lia.
Qed.

Lemma trimLeft_fixed_head (c : ascii) (s : string) :
  trimLeft (String c s) = String c s -> isSpace c = false.
Proof.
  cbn [trimLeft]. destruct (isSpace c); [|reflexivity]. intros H.
  pose proof (trimLeft_length s) as HL. rewrite H in HL. simpl in HL. lia.
Qed.

Lemma trimRight_idem (s : string) : trimRight (trimRight s) = trimRight s.
Proof.
  induction s as [|c s IH]; [reflexivity|]. cbn [trimRight].
  destruct ((trimRight s =? "") && isSpace c) eqn:E; [reflexivity|].
  cbn [trimRight]. now rewrite IH, E.
Qed.

Lemma trimLeft_trimRight (s : string) :
  trimLeft s = s -> trimLeft (trimRight s) = trimRight s.
Proof.
  destruct s as [|c s]; [reflexivity|]. intros H.
  pose proof (trimLeft_fixed_head c s H) as Hc.
  cbn [trimRight]. rewrite Hc, andb_false_r. cbn [trimLeft]. now rewrite Hc.
Qed.

Lemma TrimSpace_trimLeft (s : string) : trimLeft (TrimSpace s) = TrimSpace s.
Proof. unfold TrimSpace. apply trimLeft_trimRight, trimLeft_idem. Qed.

Lemma TrimSpace_idem (s : string) : TrimSpace (TrimSpace s) = TrimSpace s.
Proof.
  unfold TrimSpace at 1. rewrite TrimSpace_trimLeft. unfold TrimSpace.
  apply trimRight_idem.
Qed.

Lemma Contains_trimLeft (c : ascii) (s : string) :
  isSpace c = false ->
  Contains (trimLeft s) (String c "") = Contains s (String c "").
Proof.
  intros Hc. induction s as [|a s IH]; [reflexivity|]. cbn [trimLeft].
  destruct (isSpace a) eqn:E; [|reflexivity].
  rewrite IH, Contains_byte_cons.
  destruct (Ascii.eqb_spec c a) as [->|_]; [congruence|reflexivity].
Qed.

Lemma Contains_trimRight (c : ascii) (s : string) :
  isSpace c = false ->
  Contains (trimRight s) (String c "") = Contains s (String c "").
Proof.
  intros Hc. induction s as [|a s IH]; [reflexivity|]. cbn [trimRight].
  rewrite Contains_byte_cons.
  destruct (String.eqb_spec (trimRight s) "") as [E|_]; cbn [andb].
  - rewrite E in IH. destruct (isSpace a) eqn:Ha.
    + rewrite <- IH.
      destruct (Ascii.eqb_spec c a) as [->|_]; [congruence|reflexivity].
    + now rewrite Contains_byte_cons, E, IH.
  - now rewrite Contains_byte_cons, IH.
Qed.

Lemma Contains_TrimSpace (c : ascii) (s : string) :
  isSpace c = false ->
  Contains (TrimSpace s) (String c "") = Contains s (String c "").
Proof.
  intros Hc. unfold TrimSpace.
  now rewrite (Contains_trimRight _ _ Hc), (Contains_trimLeft _ _ Hc).
Qed.

Lemma Fields_head (s f : string) (r : list string) :
  Fields s = f :: r -> exists tail, trimLeft s = f ++ tail.
Proof.
  revert f r. induction s as [|c s IH]; intros f r; [discriminate|].
  change (Fields (String c s)) with
    (if isSpace c then Fields s
     else match s with
          | EmptyString => [String c ""]
          | String c' _ =>
              if isSpace c' then String c "" :: Fields s
              else consHead c (Fields s)
          end).
  cbn [trimLeft]. destruct (isSpace c) eqn:Hc; [apply IH|].
  destruct s as [|c' s'].
  - intros H. injection H as <- _. now exists "".
  - destruct (isSpace c') eqn:Hc'.
    + intros H. injection H as <- _. now exists (String c' s').
    + destruct (Fields (String c' s')) as [|x xs] eqn:F; cbn [consHead].
      * intros H. injection H as <- _. now exists (String c' s').
      * intros H. injection H as <- _.
        destruct (IH x xs eq_refl) as [tail E].
        cbn [trimLeft] in E. rewrite Hc' in E. exists tail.
        cbn [append]. now rewrite E.
Qed.

Lemma HasPrefix_byte_app (c : ascii) (f tail : string) :
  f <> "" ->
  HasPrefix (f ++ tail) (String c "") = HasPrefix f (String c "").
Proof. destruct f; [congruence|reflexivity]. Qed.

(** X10. Only the first white-space separated field of a line is read:
    extraction from a line gives what extraction from its first field
    alone gives, so annotations after the first field never change the
    host, the port or the success flag. *)
Theorem extract_first_field_only (L : NetLib) (line first : string)
    (rest : list string) :
  Fields (TrimSpace line) = first :: rest ->
  extractHostFromLine line = extractHostFromLine first.
Proof.
  intros HF.
  pose proof (Fields_noSpace (TrimSpace line)) as HA. rewrite HF in HA.
  inversion HA as [|? ? [Hne Hsp] _]; subst.
  destruct (Fields_head _ _ _ HF) as [tail E].
  rewrite TrimSpace_trimLeft in E.
  unfold extractHostFromLine.
  rewrite (TrimSpace_noSpace _ Hsp), (Fields_single _ Hne Hsp), HF, E.
  rewrite (HasPrefix_byte_app "#" first tail Hne).
  destruct (String.eqb_spec first "") as [|_]; [contradiction|].
  destruct (String.eqb_spec (first ++ tail) "") as [E0|_]; [|reflexivity].
  destruct first; [contradiction|discriminate E0].
Qed.

Lemma extract_first_field_only_witness :
  extractHostFromLine (L := RefLib.lib) "https://example.com/login [200] 12ms" =
  extractHostFromLine (L := RefLib.lib) "https://example.com/login".
Proof.
  apply (extract_first_field_only RefLib.lib _ _ ["[200]"; "12ms"]).
  reflexivity.
Defined.

(** X9. A text that starts with a bracketed host is split at its last
    closing bracket: the host is the text between the brackets, the port
    is what follows a colon right after the bracket, and any other text
    after the bracket is dropped.  This holds for [stripPort] with the
    brackets kept, and for [extractHostFromLine] with the brackets
    stripped when the first field of the line has that form and no
    ["://"]. *)
Theorem extract_bracketed (L : NetLib) (a rest : string) :
  Contains rest "]" = false ->
  (TrimSpace ("[" ++ a ++ "]" ++ rest) = "[" ++ a ++ "]" ++ rest ->
   stripPort ("[" ++ a ++ "]" ++ rest) =
   ("[" ++ a ++ "]", if HasPrefix rest ":" then drop 1 rest else "")) /\
  (forall line others,
     Fields (TrimSpace line) = ("[" ++ a ++ "]" ++ rest) :: others ->
     Contains ("[" ++ a ++ "]" ++ rest) "://" = false ->
     extractHostFromLine line =
     (a, if HasPrefix rest ":" then drop 1 rest else "", true)).
Proof.
  intros Hr. split; [intros HT; now apply stripPort_bracket_aux|].
  intros line others HF Hs.
  pose proof (Fields_noSpace (TrimSpace line)) as HA. rewrite HF in HA.
  inversion HA as [|? ? [_ Hsp] _]; subst.
  pose proof (TrimSpace_noSpace _ Hsp) as HT.
  destruct (Fields_head _ _ _ HF) as [tail E].
  rewrite TrimSpace_trimLeft in E.
  unfold extractHostFromLine. rewrite HF, E.
  assert (Hn : (("[" ++ a ++ "]" ++ rest) ++ tail =? "") = false) by reflexivity.
  assert (Hh : HasPrefix (("[" ++ a ++ "]" ++ rest) ++ tail) "#" = false)
    by reflexivity.
  assert (Hb : HasPrefix ("[" ++ a ++ "]" ++ rest) "[" = true) by reflexivity.
  assert (Hc : Contains ("[" ++ a ++ "]" ++ rest) "]" = true).
  { change ("[" ++ a ++ "]" ++ rest) with (String "[" a ++ String "]" rest).
    apply Contains_byte_true. }
  rewrite Hn, Hh, Hs, Hb, Hc.
  cbn [orb andb]. rewrite (stripPort_bracket_aux a rest HT Hr).
  now rewrite unbracket_bracketed.
Qed.

Lemma extract_bracketed_witness :
  extractHostFromLine (L := RefLib.lib) "  [2001:db8::1]:8443 [200]" =
  ("2001:db8::1", "8443", true).
Proof.
  apply (proj2 (extract_bracketed RefLib.lib "2001:db8::1" ":8443" eq_refl)
           "  [2001:db8::1]:8443 [200]" ["[200]"]); reflexivity.
Defined.

(** ** Comments and kinds in the scope file *)

Lemma Index_byte_cons (a c : ascii) (s : string) :
  Index (String a s) (String c "") =
  if Ascii.eqb c a then Some 0 else option_map S (Index s (String c "")).
Proof.
  change (Index (String a s) (String c "")) with
    (if HasPrefix (String a s) (String c "") then Some 0
     else option_map S (Index s (String c ""))).
  cbn [HasPrefix]. now rewrite andb_true_r.
Qed.

Lemma Index_none (c : ascii) (s : string) :
  Contains s (String c "") = false -> Index s (String c "") = None.
Proof.
  induction s as [|a s IH]; [reflexivity|].
  rewrite Contains_byte_cons, Index_byte_cons. intros H.
  apply orb_false_iff in H. destruct H as [-> H]. now rewrite (IH H).
Qed.

Lemma Index_app_first (c : ascii) (pre post : string) :
  Contains pre (String c "") = false ->
  Index (pre ++ String c post) (String c "") = Some (String.length pre).
Proof.
  induction pre as [|a pre IH]; intros H.
  - cbn [append]. now rewrite Index_byte_cons, Ascii.eqb_refl.
  - rewrite Contains_byte_cons in H. apply orb_false_iff in H.
    destruct H as [Ha H]. cbn [append].
    now rewrite Index_byte_cons, Ha, (IH H).
Qed.

Lemma Contains_TrimSuffix_dot (c : ascii) (s : string) :
  Ascii.eqb c "." = false ->
  Contains (TrimSuffix s ".") (String c "") = Contains s (String c "").
Proof.
  intros Hc. destruct (HasSuffix s ".") eqn:E.
  - destruct (HasSuffix_inv _ _ E) as [pre ->].
    rewrite TrimSuffix_app, Contains_byte_app, Contains_byte_cons, Hc.
    now rewrite !orb_false_r.
  - now rewrite (TrimSuffix_noop _ _ E).
Qed.

(** X11. An inline comment in the scope file is ignored: a line whose
    trimmed text is some text without [#], then [#], then anything, loads
    exactly as that first text alone would. *)
Theorem loadScope_inline_comment (L : NetLib) (raw0 pre post : string)
    (rest : list string) :
  TrimSpace raw0 = pre ++ "#" ++ post ->
  pre <> "" ->
  Contains pre "#" = false ->
  loadScope (raw0 :: rest) = loadScope (pre :: rest).
Proof.
  intros HT Hne Hc. cbn [loadScope]. rewrite HT.
  assert (E0 : (pre ++ "#" ++ post =? "") = false).
  { destruct pre; [contradiction|reflexivity]. }
  assert (E1 : HasPrefix (pre ++ "#" ++ post) "#" = false).
  { rewrite (HasPrefix_byte_app "#" pre _ Hne). now apply HasPrefix_Contains. }
  rewrite E0, E1. cbn [append]. rewrite (Index_app_first "#" pre post Hc).
  replace (take (String.length pre) (pre ++ String "#" post)) with pre
    by (symmetry; apply take_app).
  assert (C : Contains (TrimSpace pre) "#" = false).
  { now rewrite (Contains_TrimSpace "#" pre eq_refl). }
  rewrite (HasPrefix_Contains _ _ C), (Index_none _ _ C).
  destruct (TrimSpace pre =? ""); reflexivity.
Qed.

Lemma loadScope_inline_comment_witness :
  loadScope (L := RefLib.lib) ["  *.test.com   # all of test  "] =
  loadScope (L := RefLib.lib) ["*.test.com   "].
Proof.
  apply (loadScope_inline_comment RefLib.lib "  *.test.com   # all of test  "
           "*.test.com   " " all of test" []); [reflexivity|discriminate|reflexivity].
Defined.

(** X12. The kind of a parsed scope line is read off its text: the entry
    is [Exact] exactly when the line has no [*]; it is a
    [LeadingWildcard] exactly when the line, trimmed and without one
    trailing dot, starts with [*.]; and the entry keeps the line it was
    parsed from as [raw]. *)
Theorem parseScopeLine_kind (L : NetLib) (line : string) :
  (kind (parseScopeLine line) = scopeExact <-> Contains line "*" = false) /\
  (kind (parseScopeLine line) = scopeLeadingWildcard <->
   HasPrefix (TrimSuffix (TrimSpace line) ".") "*." = true) /\
  raw (parseScopeLine line) = line.
Proof.
  assert (C : Contains (TrimSuffix (TrimSpace line) ".") "*" = Contains line "*").
  { now rewrite (Contains_TrimSuffix_dot "*" _ eq_refl),
      (Contains_TrimSpace "*" _ eq_refl). }
  unfold parseScopeLine.
  destruct (HasPrefix (TrimSuffix (TrimSpace line) ".") "*.") eqn:P.
  - assert (S : Contains line "*" = true).
    { rewrite <- C. destruct (HasPrefix_inv _ _ P) as [t ->]. reflexivity. }
    destruct (stripPort _). cbn [kind raw]. rewrite S.
    repeat split; try congruence; discriminate.
  - rewrite C. destruct (Contains line "*").
    + match goal with |- context [if ?c then _ else _] => destruct c end;
        [match goal with |- context [if ?c then _ else _] => destruct c end|];
        cbn [kind raw]; repeat split; try congruence; discriminate.
    + destruct (stripPort _). destruct (ParseIP _); cbn [kind raw];
        repeat split; try congruence; discriminate.
Qed.

(** ** Normalization and host equality *)

Lemma trimRight_snoc (c : ascii) (s : string) :
  isSpace c = false -> trimRight (s ++ String c "") = s ++ String c "".
Proof.
  intros Hc. induction s as [|x s IH].
  - cbn [append trimRight]. now rewrite Hc, andb_false_r.
  - cbn [append trimRight]. rewrite IH.
    replace (s ++ String c "" =? "") with false by (now destruct s).
    reflexivity.
Qed.

Lemma TrimSpace_snoc (c : ascii) (s : string) :
  isSpace c = false -> TrimSpace s = s -> s <> "" ->
  TrimSpace (s ++ String c "") = s ++ String c "".
Proof.
  intros Hc HT Hne. unfold TrimSpace.
  assert (HL : trimLeft s = s).
  { rewrite <- HT at 2. rewrite <- TrimSpace_trimLeft. now rewrite HT. }
  destruct s as [|a s]; [contradiction|].
  pose proof (trimLeft_fixed_head a s HL) as Ha.
  cbn [append trimLeft]. rewrite Ha.
  apply (trimRight_snoc c (String a s) Hc).
Qed.

(** X13. [normalizeHost] never reports an error; white space around the
    host makes no difference to its result; a host that is no IP literal
    comes out in lower case; and one dot added to a trimmed, non-empty
    host that does not end with a dot makes no difference either. *)
Theorem normalizeHost_insensitive (L : NetLib) (h : string) :
  snd (normalizeHost h) = None /\
  normalizeHost (TrimSpace h) = normalizeHost h /\
  (ParseIP (TrimSuffix (TrimSpace h) ".") = None ->
   ToLower (fst (normalizeHost h)) = fst (normalizeHost h)) /\
  (TrimSpace h = h -> h <> "" -> HasSuffix h "." = false ->
   normalizeHost (h ++ ".") = normalizeHost h).
Proof.
  split; [|split; [|split]].
  - unfold normalizeHost. destruct (TrimSpace h =? ""); [reflexivity|].
    destruct (ParseIP _); reflexivity.
  - unfold normalizeHost. now rewrite TrimSpace_idem.
  - intros HP. rewrite normalizeHost_fst, HP.
    destruct (TrimSpace h =? ""); [reflexivity|apply ToLower_idem].
  - intros HT Hne HS. unfold normalizeHost.
    rewrite (TrimSpace_snoc "." h eq_refl HT Hne), HT.
    rewrite TrimSuffix_app, (TrimSuffix_noop _ _ HS).
    destruct (String.eqb_spec h "") as [|_]; [contradiction|].
    replace (h ++ "." =? "") with false by (now destruct h).
    reflexivity.
Qed.

Lemma normalizeHost_insensitive_witness :
  normalizeHost (L := RefLib.lib) ("Example.COM" ++ ".") =
  normalizeHost (L := RefLib.lib) "Example.COM".
Proof.
  apply (proj2 (proj2 (proj2 (normalizeHost_insensitive RefLib.lib "Example.COM"))));
    [reflexivity|discriminate|reflexivity].
Defined.

(** X14. [equalHost] is an equivalence on host names that ignores one
    trailing dot: it is reflexive, symmetric and transitive, and a dot
    added to a side that does not end with one does not change its
    answer. *)
Theorem equalHost_equivalence (a b c : string) :
  equalHost a a = true /\
  equalHost a b = equalHost b a /\
  (equalHost a b = true -> equalHost b c = true -> equalHost a c = true) /\
  (HasSuffix a "." = false -> equalHost (a ++ ".") b = equalHost a b).
Proof.
  unfold equalHost, EqualFold. split; [apply String.eqb_refl|].
  split; [apply String.eqb_sym|]. split.
  - rewrite !String.eqb_eq. congruence.
  - intros H. now rewrite TrimSuffix_app, (TrimSuffix_noop _ _ H).
Qed.

Lemma equalHost_equivalence_witness :
  equalHost ("Example.com" ++ ".") "EXAMPLE.COM" =
  equalHost "Example.com" "EXAMPLE.COM".
Proof.
  apply (proj2 (proj2 (proj2
           (equalHost_equivalence "Example.com" "EXAMPLE.COM" "")))).
  reflexivity.
Defined.

(** ** When extraction fails, and the empty scope *)

Lemma consHead_nonempty (c : ascii) (l : list string) : consHead c l <> [].
Proof. destruct l; discriminate. Qed.

Lemma Fields_nil (s : string) : Fields s = [] -> trimLeft s = "".
Proof.
  induction s as [|c s IH]; [reflexivity|].
  change (Fields (String c s)) with
    (if isSpace c then Fields s
     else match s with
          | EmptyString => [String c ""]
          | String c' _ =>
              if isSpace c' then String c "" :: Fields s
              else consHead c (Fields s)
          end).
  cbn [trimLeft]. destruct (isSpace c); [exact IH|].
  destruct s as [|c' s']; [discriminate|].
  destruct (isSpace c'); [discriminate|].
  intros H. now apply consHead_nonempty in H.
Qed.

(** X15. Extraction fails in three cases only: the line is blank, its
    first non-blank byte is [#], or its first field contains ["://"] and
    URL parsing fails or finds no host.  Whenever it fails, host and port
    are both empty. *)
Theorem extract_failure_cases (L : NetLib) (line : string) :
  (snd (extractHostFromLine line) = false <->
   TrimSpace line = "" \/
   HasPrefix (TrimSpace line) "#" = true \/
   exists first rest,
     Fields (TrimSpace line) = first :: rest /\
     Contains first "://" = true /\
     (urlParse first = None \/
      exists u, urlParse first = Some u /\ Host u = "")) /\
  (snd (extractHostFromLine line) = false ->
   extractHostFromLine line = ("", "", false)).
Proof.
  unfold extractHostFromLine.
  destruct (String.eqb_spec (TrimSpace line) "") as [E|NE]; cbn [orb].
  { split; [split; [intros _; now left|reflexivity]|reflexivity]. }
  destruct (HasPrefix (TrimSpace line) "#") eqn:Hh.
  { split; [split; [intros _; right; now left|reflexivity]|reflexivity]. }
  destruct (Fields (TrimSpace line)) as [|first rest] eqn:HF.
  { exfalso. apply Fields_nil in HF. rewrite TrimSpace_trimLeft in HF.
    contradiction. }
  assert (D : snd (let '(h, p) := stripPort first in (unbracket h, p, true)) = true)
    by apply extract_ok_of_direct.
  assert (N : forall P : Prop,
            (TrimSpace line = "" \/ false = true \/ P) -> P).
  { intros P [A|[A|A]]; [contradiction|discriminate|exact A]. }
  destruct (Contains first "://") eqn:Hs.
  - destruct (urlParse first) as [u|] eqn:Hu.
    + destruct (String.eqb_spec (Host u) "") as [EH|NH].
      * split; [|reflexivity]. split; [|reflexivity]. intros _. right. right.
        exists first, rest. split; [reflexivity|]. split; [exact Hs|].
        right. exists u. now split.
      * destruct (stripPort (Host u)) as [h p]. cbn [snd].
        split; [|discriminate]. split; [discriminate|]. intros H.
        apply N in H. destruct H as (f & r & Ef & _ & [A|(u' & A & B)]);
          injection Ef as <- <-; congruence.
    + split; [|reflexivity]. split; [|reflexivity]. intros _. right. right.
      exists first, rest. split; [reflexivity|]. split; [exact Hs|].
      now left.
  - assert (R : forall (x : string * string * bool),
              snd x = true ->
              (snd x = false <->
               TrimSpace line = "" \/ false = true \/
               exists first0 rest0,
                 first :: rest = first0 :: rest0 /\
                 Contains first0 "://" = true /\
                 (urlParse first0 = None \/
                  exists u, urlParse first0 = Some u /\ Host u = "")) /\
              (snd x = false -> x = ("", "", false))).
    { intros x Hx. rewrite Hx. split; [|discriminate]. split; [discriminate|].
      intros H. apply N in H. destruct H as (f & r & Ef & Cf & _).
      injection Ef as <- <-. congruence. }
    destruct (HasPrefix first "[" && Contains first "]"); [now apply R|].
    destruct (Contains first "/"); [|now apply R].
    destruct (urlParse ("http://" ++ first)) as [u|]; [|now apply R].
    destruct (negb (Host u =? "")); [|now apply R].
    apply R. now destruct (stripPort (Host u)).
Qed.

Lemma extract_failure_cases_witness :
  extractHostFromLine (L := RefLib.lib) "   # staging hosts" = ("", "", false).
Proof.
  apply (proj2 (extract_failure_cases RefLib.lib "   # staging hosts")).
  reflexivity.
Defined.

(** X16. A scope file of blank and comment lines only gives the empty
    scope; and with the empty scope nothing is written without inversion,
    while with inversion every line with a non-empty normalized host is
    written. *)
Theorem empty_scope_behaviour (L : NetLib) :
  (forall scopeLines,
     Forall (fun l => TrimSpace l = "" \/ HasPrefix (TrimSpace l) "#" = true)
            scopeLines ->
     loadScope scopeLines = []) /\
  (forall lines, processLines lines [] false = []) /\
  (forall lines,
     processLines lines [] true =
     filter (fun line =>
               snd (extractHostFromLine line) &&
               negb (fst (normalizeHost (fst (fst (extractHostFromLine line)))) =? ""))
            lines).
Proof.
  split; [|split].
  - intros scopeLines HF. induction HF as [|l rest [E|E] _ IH]; [reflexivity| |];
      cbn [loadScope]; rewrite E; [exact IH|].
    destruct (TrimSpace l =? ""); exact IH.
  - induction lines as [|line rest IH]; [reflexivity|].
    cbn [processLines]. rewrite processLine_cases.
    destruct (extractHostFromLine line) as [[host p] ok]. cbv zeta.
    destruct (ok && negb (fst (normalizeHost host) =? "")); [|exact IH].
    rewrite matchHost_existsb, andb_false_r. exact IH.
  - induction lines as [|line rest IH]; [reflexivity|].
    cbn [processLines filter]. rewrite processLine_cases.
    destruct (extractHostFromLine line) as [[host p] ok]. cbv zeta.
    cbn [fst snd].
    destruct (ok && negb (fst (normalizeHost host) =? "")); [|exact IH].
    rewrite matchHost_existsb, andb_false_r. cbn [Bool.eqb existsb].
    now rewrite IH.
Qed.

Lemma empty_scope_behaviour_witness :
  loadScope (L := RefLib.lib) ["# production"; "   "; "  # none yet"] = [].
Proof.
  apply (proj1 (empty_scope_behaviour RefLib.lib)).
  repeat constructor; right; reflexivity.
Defined.

(** ** Pattern lines *)

Lemma splitGo_pieces_other (c d : ascii) (s : string) :
  Contains s (String d "") = false ->
  Forall (fun x => Contains x (String d "") = false) (splitGo (String c "") 0 s).
Proof.
  induction s as [|a s IH]; intros H; [repeat constructor|].
  rewrite Contains_byte_cons in H. apply orb_false_iff in H.
  destruct H as [Ha Hs]. specialize (IH Hs).
  change (splitGo (String c "") 0 (String a s)) with
    (if HasPrefix (String a s) (String c "")
     then "" :: splitGo (String c "") 0 s
     else consHead a (splitGo (String c "") 0 s)).
  destruct (HasPrefix (String a s) (String c "")); [now constructor|].
  destruct (splitGo (String c "") 0 s) as [|x xs]; cbn [consHead].
  - constructor; [|constructor]. now rewrite Contains_byte_cons, Ha.
  - inversion IH as [|? ? Hx Hxs]; subst. constructor; [|assumption].
    now rewrite Contains_byte_cons, Ha, Hx.
Qed.

Lemma setNth_middle (done : list string) (x v : string) (xs : list string) :
  setNth (List.length done) v (done ++ x :: xs)%list = (done ++ v :: xs)%list.
Proof. induction done as [|y done IH]; simpl; [reflexivity|now rewrite IH]. Qed.

Lemma lowerByte_not_P (c : ascii) : Ascii.eqb "P" (lowerByte c) = false.
Proof. destruct c as [[] [] [] [] [] [] [] []]; reflexivity. Qed.

Lemma ToLower_no_port_mark (y : string) : HasPrefix (ToLower y) "__PORT__:" = false.
Proof.
  destruct y as [|a [|b [|c y]]]; cbn [ToLower HasPrefix];
    try reflexivity;
    try (destruct (Ascii.eqb "_" (lowerByte a)); reflexivity);
    try (destruct (Ascii.eqb "_" (lowerByte a)), (Ascii.eqb "_" (lowerByte b));
         reflexivity).
  rewrite lowerByte_not_P.
  destruct (Ascii.eqb "_" (lowerByte a)), (Ascii.eqb "_" (lowerByte b));
    reflexivity.
Qed.

Section PatternFacts.
Context {L : NetLib}.

(** What the label loop stores for a label without colon. *)
Lemma labelStep_plain (done : list string) (x : string) (xs : list string) :
  Contains x ":" = false ->
  labelStep (done ++ x :: xs)%list (List.length done) =
  (done ++ (let t := TrimSpace x in
            if t =? "" then ""
            else ToLower (if t =? "*" then t else asciiOrKeep t)) :: xs)%list.
Proof.
  intros H. unfold labelStep. rewrite nth_middle. cbv zeta.
  destruct (String.eqb_spec (TrimSpace x) "") as [E|_].
  - rewrite E. apply setNth_middle.
  - rewrite (Contains_TrimSpace ":" x eq_refl), H.
    destruct (TrimSpace x =? "*"); apply setNth_middle.
Qed.

Lemma labelLoop_plain (todo done : list string) :
  Forall (fun x => Contains x ":" = false) todo ->
  fold_left labelStep (seq (List.length done) (List.length todo))
    (done ++ todo)%list =
  (done ++ map (fun x => let t := TrimSpace x in
                         if t =? "" then ""
                         else ToLower (if t =? "*" then t else asciiOrKeep t))
               todo)%list.
Proof.
  revert done. induction todo as [|x xs IH]; intros done HF; [reflexivity|].
  inversion HF as [|? ? Hx Hxs]; subst.
  cbn [List.length seq fold_left map]. rewrite (labelStep_plain done x xs Hx).
  match goal with
  | |- context [(done ++ ?v :: xs)%list] =>
      specialize (IH (done ++ [v])%list Hxs)
  end.
  rewrite length_app, Nat.add_1_r, <- !app_assoc in IH. exact IH.
Qed.

End PatternFacts.

(** X17. A pattern line without colon is parsed label by label: the
    entry is a [PatternWildcard] without port and without base, and its
    labels are the dot-separated pieces of the line (trimmed, without one
    trailing dot), each trimmed, with [*] and empty pieces kept as they
    are and every other piece converted by IDNA where that succeeds and
    then lower-cased. *)
Theorem parseScopeLine_pattern_labels (L : NetLib) (line : string) :
  HasPrefix (TrimSuffix (TrimSpace line) ".") "*." = false ->
  Contains line "*" = true ->
  Contains line ":" = false ->
  parseScopeLine line =
  mkScopeEntry line scopePatternWildcard "" ""
    (map (fun x => let t := TrimSpace x in
                   if t =? "" then ""
                   else ToLower (if t =? "*" then t else asciiOrKeep t))
         (Split (TrimSuffix (TrimSpace line) ".") ".")).
Proof.
  intros HP HS HC. unfold parseScopeLine. rewrite HP.
  rewrite (Contains_TrimSuffix_dot "*" _ eq_refl),
    (Contains_TrimSpace "*" _ eq_refl), HS.
  assert (C : Contains (TrimSuffix (TrimSpace line) ".") ":" = false).
  { now rewrite (Contains_TrimSuffix_dot ":" _ eq_refl),
      (Contains_TrimSpace ":" _ eq_refl). }
  unfold Split.
  pose proof (labelLoop_plain _ [] (splitGo_pieces_other "." ":" _ C)) as E.
  cbn [List.length app] in E. rewrite E.
  set (f := fun x : string => _) in *.
  assert (F : HasPrefix
                (lastElem (map f (splitGo "." 0 (TrimSuffix (TrimSpace line) "."))))
                "__PORT__:" = false).
  { apply (lastElem_Forall (fun y => HasPrefix y "__PORT__:" = false)).
    - intros N. apply map_eq_nil in N.
      now apply RefLibFacts.splitGo_nonempty in N.
    - apply Forall_map, Forall_forall. intros x _. unfold f.
      destruct (TrimSpace x =? ""); [reflexivity|apply ToLower_no_port_mark]. }
  rewrite F. destruct (0 <? _)%nat; reflexivity.
Qed.

Lemma parseScopeLine_pattern_labels_witness :
  parseScopeLine (L := RefLib.lib) " Staging.*.Domain.COM. " =
  mkScopeEntry " Staging.*.Domain.COM. " scopePatternWildcard "" ""
    ["staging"; "*"; "domain"; "com"].
Proof.
  apply (parseScopeLine_pattern_labels RefLib.lib " Staging.*.Domain.COM. ");
    reflexivity.
Defined.

(** ** Exact lines with a port *)

Lemma HasPrefix_star_dot (s : string) :
  Contains s "*" = false -> HasPrefix s "*." = false.
Proof.
  intros H. destruct (HasPrefix s "*.") eqn:P; [|reflexivity].
  destruct (HasPrefix_inv _ _ P) as [t ->]. discriminate H.
Qed.

(** X18. A scope line [host:port] without wildcard and brackets is parsed
    into an [Exact] entry that carries exactly that port; its base is the
    host without one trailing dot, in canonical form when it is an IP
    literal and otherwise converted by IDNA where that succeeds and
    lower-cased. *)
Theorem parseScopeLine_exact_port (L : NetLib) (host p : string) :
  TrimSpace (host ++ ":" ++ p) = host ++ ":" ++ p ->
  HasSuffix (host ++ ":" ++ p) "." = false ->
  Contains (host ++ ":" ++ p) "*" = false ->
  Contains (host ++ ":" ++ p) "[" = false ->
  Contains (host ++ ":" ++ p) "]" = false ->
  Contains host ":" = false ->
  Contains p ":" = false ->
  parseScopeLine (host ++ ":" ++ p) =
  mkScopeEntry (host ++ ":" ++ p) scopeExact
    match ParseIP (TrimSuffix host ".") with
    | Some ip => IPString ip
    | None => ToLower (asciiOrKeep (TrimSuffix host "."))
    end
    p [].
Proof.
  intros HT HD HS Hl Hr Hh Hp. unfold parseScopeLine.
  rewrite HT, (TrimSuffix_noop _ _ HD), (HasPrefix_star_dot _ HS), HS.
  rewrite (stripPort_host_port_aux host p HT Hl Hr Hh Hp).
  assert (B : HasPrefix (TrimSuffix host ".") "[" = false).
  { apply HasPrefix_Contains.
    rewrite (Contains_TrimSuffix_dot "[" _ eq_refl).
    rewrite Contains_byte_app in Hl. apply orb_false_iff in Hl. now destruct Hl. }
  unfold unbracket. rewrite B. cbn [andb].
  destruct (ParseIP (TrimSuffix host ".")); reflexivity.
Qed.

Lemma parseScopeLine_exact_port_witness :
  parseScopeLine (L := RefLib.lib) ("Example.COM" ++ ":" ++ "8080") =
  mkScopeEntry "Example.COM:8080" scopeExact "example.com" "8080" [].
Proof.
  apply (parseScopeLine_exact_port RefLib.lib "Example.COM" "8080"); reflexivity.
Defined.

Lemma processLines_modes_partition_witness :
  In "staging.domain.com" (processLines (L := RefLib.lib) readmeUrls readmeScope false) \/
  In "staging.domain.com" (processLines (L := RefLib.lib) readmeUrls readmeScope true).
Proof.
  apply (proj2 (processLines_modes_partition RefLib.lib readmeScope readmeUrls
                  "staging.domain.com")).
  split; [vm_compute; tauto|]. split; [reflexivity|discriminate].
Defined.
